(** * Cursor Rules viewer: sync policy and rule applier

    A shallow embedding of [src/panels/RulesViewProvider.ts] (class
    [RulesViewProvider]) and of the command registered in
    [src/extension.ts].  The class is event-driven glue around the VS Code
    host: it reads and writes the process-wide configuration store and the
    file system, probes and fetches a remote URL, posts messages to a webview
    and raises notifications.  All of that is modelled as an explicit
    [World] threaded through a small state-and-exception monad; everything
    the host decides (network outcomes, the clock, I/O faults, the user's
    answer to a prompt, the JSON codec) is gathered in an [Env].

    Conventions.  [await] is sequencing: one action runs from start to end.
    [console.log] calls are dropped.  The [as Rule[]] casts are trusted, so
    the codec yields rule lists.  The [World] also records the requests and
    the file writes that were issued, so that statements can speak about
    what a routine did not do. *)

From Stdlib Require Import ZArith String List Bool DecimalString Lia.
From Stdlib Require Import Sorted Permutation.
From stdpp Require Import base gmap strings.

Import ListNotations.
Local Open Scope string_scope.
Local Open Scope Z_scope.

(** ** Data model *)

(** [interface RuleAuthor] and [interface Rule] (RulesViewProvider.ts, 8-21). *)
Record RuleAuthor := mkAuthor {
  name : string;
  url : string;
  avatar : option string
}.

Record Rule := mkRule {
  title : string;
  slug : string;
  tags : list string;
  libs : list string;
  content : string;
  author : RuleAuthor
}.

(** A value held by the configuration store.  Settings are JSON scalars; time
    stamps are integral epoch milliseconds, so numbers are modelled in [Z]
    (differences of such stamps are exact in the host's doubles). *)
Inductive CfgValue :=
| CfgNull
| CfgBool (b : bool)
| CfgNum (n : Z)
| CfgStr (s : string).

(** JavaScript truthiness of a stored value (the [if (cachedRulesStr)] test). *)
Definition truthy (v : CfgValue) : bool :=
  match v with
  | CfgNull => false
  | CfgBool b => b
  | CfgNum n => negb (n =? 0)
  | CfgStr s => negb (String.eqb s "")
  end.

(** [ToString], applied by [JSON.parse] to its argument. *)
Definition ToString (v : CfgValue) : string :=
  match v with
  | CfgNull => "null"
  | CfgBool true => "true"
  | CfgBool false => "false"
  | CfgNum n => NilEmpty.string_of_int (Z.to_int n)
  | CfgStr s => s
  end.

(** Exceptions that travel through the class. *)
Inductive Err :=
| FetchError                 (* fetch() rejected: network failure *)
| SyntaxError                (* JSON.parse / response.json() *)
| FsError                    (* fs.readFileSync / fs.writeFileSync *)
| ConfigError                (* configuration update rejected *)
| Error (message : string).  (* new Error(message) *)

Inductive Method := HEAD | GET.

Record Response := mkResponse {
  ok : bool;
  statusText : string;
  body : string
}.

(** Outcome of one [fetch] call. *)
Inductive NetResult :=
| NetFails
| NetResponds (r : Response).

(** Notifications raised through [vscode.window]. *)
Inductive Notification :=
| ErrorMessage (msg : string)
| InformationMessage (msg : string)
| WarningMessage (msg : string) (items : list string).

(** Messages of the host/panel protocol. *)
Inductive Outgoing :=
| setRules (rs : list Rule) (lastSync : option Z) (needsSync isOffline : bool)
| syncComplete (lastSync : Z).

Inductive Incoming :=
| getRules
| setRule (rule : Rule)
| syncRules
| otherMessage (type : string).

(** The value returned by [_loadRules]. *)
Record LoadResult := mkLoad {
  rules : list Rule;
  needsSync : bool;
  isOffline : bool
}.

(** ** The host *)

(** What the surroundings decide during one action. *)
Record Env := mkEnv {
  JSON_parse : string -> option (list Rule);      (* None: throws SyntaxError *)
  JSON_stringify : list Rule -> string;           (* JSON.stringify(rules) *)
  JSON_stringify_pretty : list Rule -> string;    (* JSON.stringify(rules, null, 2) *)
  path_join : string -> string -> string;         (* path.join *)
  RULES_JSON_PATH : string;                       (* the bundled rules.json *)
  fetch_result : Method -> NetResult;             (* the remote endpoint *)
  Date_now : nat -> Z;                            (* successive clock readings *)
  readFile_throws : string -> bool;
  writeFile_throws : string -> bool;
  update_rejects : string -> bool;                (* configuration write faults *)
  warning_choice : option string                  (* item picked in a prompt *)
}.

(** The mutable state the class observes and changes. *)
Record World := mkWorld {
  config : gmap string CfgValue;      (* vscode.workspace.getConfiguration() *)
  files : gmap string string;         (* file system: path to contents *)
  workspaceFolders : list string;     (* fsPath of each open folder *)
  panel : bool;                       (* this._panel is set *)
  posted : list Outgoing;             (* webview.postMessage log *)
  notifications : list Notification;  (* vscode.window.show*Message log *)
  requests : list Method;             (* fetch calls issued *)
  writes : list (string * string);    (* fs.writeFileSync calls issued *)
  ticks : nat                         (* Date.now() calls so far *)
}.

Definition LAST_SYNC_KEY : string := "cursorRules.lastSync".
Definition RULES_CACHE_KEY : string := "cursorRules.cachedRules".

(** 24 * 60 * 60 * 1000 *)
Definition DAY_MS : Z := 24 * 60 * 60 * 1000.

(** Field updates. *)
Definition with_config (c : gmap string CfgValue) (w : World) : World :=
  mkWorld c (files w) (workspaceFolders w) (panel w) (posted w)
          (notifications w) (requests w) (writes w) (ticks w).

Definition with_files (f : gmap string string) (w : World) : World :=
  mkWorld (config w) f (workspaceFolders w) (panel w) (posted w)
          (notifications w) (requests w) (writes w) (ticks w).

Definition with_panel (p : bool) (w : World) : World :=
  mkWorld (config w) (files w) (workspaceFolders w) p (posted w)
          (notifications w) (requests w) (writes w) (ticks w).

Definition with_posted (p : list Outgoing) (w : World) : World :=
  mkWorld (config w) (files w) (workspaceFolders w) (panel w) p
          (notifications w) (requests w) (writes w) (ticks w).

Definition with_notifications (n : list Notification) (w : World) : World :=
  mkWorld (config w) (files w) (workspaceFolders w) (panel w) (posted w)
          n (requests w) (writes w) (ticks w).

Definition with_requests (r : list Method) (w : World) : World :=
  mkWorld (config w) (files w) (workspaceFolders w) (panel w) (posted w)
          (notifications w) r (writes w) (ticks w).

Definition with_writes (l : list (string * string)) (w : World) : World :=
  mkWorld (config w) (files w) (workspaceFolders w) (panel w) (posted w)
          (notifications w) (requests w) l (ticks w).

Definition with_ticks (t : nat) (w : World) : World :=
  mkWorld (config w) (files w) (workspaceFolders w) (panel w) (posted w)
          (notifications w) (requests w) (writes w) t.

(** ** State and exceptions *)

Inductive Result (A : Type) :=
| Ok (a : A)
| Throw (e : Err).
Arguments Ok {A} a.
Arguments Throw {A} e.

Definition M (A : Type) : Type := World -> Result A * World.

Definition ret {A} (a : A) : M A := fun w => (Ok a, w).

Definition throw {A} (e : Err) : M A := fun w => (Throw e, w).

Definition bind {A B} (m : M A) (k : A -> M B) : M B :=
  fun w =>
    match m w with
    | (Ok a, w') => k a w'
    | (Throw e, w') => (Throw e, w')
    end.

(** [try { m } catch (e) { h e }]: effects made before the throw stay. *)
Definition try_catch {A} (m : M A) (h : Err -> M A) : M A :=
  fun w =>
    match m w with
    | (Ok a, w') => (Ok a, w')
    | (Throw e, w') => h e w'
    end.

Notation "'let*' x ':=' m 'in' k" := (bind m (fun x => k))
  (at level 10, x name, m at level 100, k at level 200).

(** ** Host primitives *)

Section Provider.

Variable env : Env.

(** [Date.now()] *)
Definition now : M Z :=
  fun w => (Ok (Date_now env (ticks w)), with_ticks (S (ticks w)) w).

(** [fetch(RULES_URL, { method })]: rejects on a network failure. *)
Definition fetch (m : Method) : M Response :=
  fun w =>
    let w' := with_requests (requests w ++ [m]) w in
    match fetch_result env m with
    | NetFails => (Throw FetchError, w')
    | NetResponds r => (Ok r, w')
    end.

(** [JSON.parse(text)] and [response.json()] *)
Definition parse (text : string) : M (list Rule) :=
  match JSON_parse env text with
  | Some rs => ret rs
  | None => throw SyntaxError
  end.

Definition existsSync (p : string) : M bool :=
  fun w => (Ok (bool_decide (is_Some (files w !! p))), w).

(** [fs.readFileSync(p, 'utf-8')] *)
Definition readFileSync (p : string) : M string :=
  fun w =>
    match files w !! p with
    | Some c => if readFile_throws env p then (Throw FsError, w) else (Ok c, w)
    | None => (Throw FsError, w)
    end.

(** [fs.writeFileSync(p, data)]: a failed write leaves the file as it was. *)
Definition writeFileSync (p data : string) : M unit :=
  fun w =>
    let w' := with_writes (writes w ++ [(p, data)]) w in
    if writeFile_throws env p then (Throw FsError, w')
    else (Ok tt, with_files (<[p := data]> (files w')) w').

(** [getConfiguration().get(key)]; [None] is [undefined]. *)
Definition config_get (key : string) : M (option CfgValue) :=
  fun w => (Ok (config w !! key), w).

(** [await getConfiguration().update(key, value, true)] *)
Definition config_update (key : string) (v : CfgValue) : M unit :=
  fun w =>
    if update_rejects env key then (Throw ConfigError, w)
    else (Ok tt, with_config (<[key := v]> (config w)) w).

Definition notify (n : Notification) : M unit :=
  fun w => (Ok tt, with_notifications (notifications w ++ [n]) w).

Definition showErrorMessage (msg : string) : M unit :=
  notify (ErrorMessage msg).

Definition showInformationMessage (msg : string) : M unit :=
  notify (InformationMessage msg).

(** [await showWarningMessage(msg, ...items)]: resolves to the picked item,
    or to [undefined] when the prompt is dismissed. *)
Definition showWarningMessage (msg : string) (items : list string)
  : M (option string) :=
  let* _ := notify (WarningMessage msg items) in
  ret (warning_choice env).

Definition postMessage (msg : Outgoing) : M unit :=
  fun w => (Ok tt, with_posted (posted w ++ [msg]) w).

Definition has_panel : M bool := fun w => (Ok (panel w), w).

(** ** The class [RulesViewProvider] *)

(** [_getLastSync] (247-250): the stored value when it is a number, else
    [null]. *)
Definition _getLastSync : M (option Z) :=
  let* value := config_get LAST_SYNC_KEY in
  ret (match value with
       | Some (CfgNum n) => Some n
       | _ => None
       end).

(** [_setLastSync] (252-254) *)
Definition _setLastSync (timestamp : Z) : M unit :=
  config_update LAST_SYNC_KEY (CfgNum timestamp).

(** [!lastSync] for [lastSync : number | null]: [null] and [0] are falsy. *)
Definition not_lastSync (lastSync : option Z) : bool :=
  match lastSync with
  | None => true
  | Some t => t =? 0
  end.

(** Line 150: [!lastSync || Date.now() - lastSync > 24 * 60 * 60 * 1000].
    The clock is read only when the left operand is false. *)
Definition compute_needsSync (lastSync : option Z) : M bool :=
  if not_lastSync lastSync then ret true
  else
    let* t := now in
    ret (t - default 0 lastSync >? DAY_MS).

(** [_loadLocalRules] (184-201) *)
Definition _loadLocalRules : M (list Rule) :=
  try_catch
    (let* present := existsSync (RULES_JSON_PATH env) in
     if negb present then ret []
     else
       let* text := readFileSync (RULES_JSON_PATH env) in
       let* rs := parse text in
       ret rs)
    (fun _ => ret []).

(** [_syncRules] (203-245) *)
Definition _syncRules : M (list Rule) :=
  try_catch
    (let* response := fetch GET in
     if negb (ok response)
     then throw (Error ("Failed to fetch rules: " ++ statusText response))
     else
       let* rs := parse (body response) in
       let rulesJson := JSON_stringify_pretty env rs in
       let* _ := try_catch
                   (writeFileSync (RULES_JSON_PATH env) rulesJson)
                   (fun _ => throw (Error "Failed to save rules locally")) in
       let* _ := config_update RULES_CACHE_KEY (CfgStr (JSON_stringify env rs)) in
       let* t := now in
       let* _ := _setLastSync t in
       let* shown := has_panel in
       let* _ := (if shown
                  then let* t' := now in postMessage (syncComplete t')
                  else ret tt) in
       let* _ := showInformationMessage "Rules synced successfully!" in
       ret rs)
    (fun error => throw error).

(** The [catch] arm of [_loadRules] (177-181); [localRules] is the value the
    variable holds when the exception arrives. *)
Definition _loadRules_catch (localRules : list Rule) : M LoadResult :=
  let* _ := showErrorMessage
              "Failed to load rules. Using local rules as fallback." in
  ret (mkLoad localRules true true).

(** Lines 163-175 of [_loadRules]. *)
Definition _loadRules_sync (localRules : list Rule) (needs : bool)
  : M LoadResult :=
  if needs
  then try_catch
         (let* syncedRules := _syncRules in
          ret (mkLoad syncedRules false false))
         (fun _ => ret (mkLoad localRules true true))
  else ret (mkLoad localRules false false).

(** Lines 124-175 of [_loadRules]: the [try] block after [localRules] has been
    assigned. *)
Definition _loadRules_try (localRules : list Rule) : M LoadResult :=
  if (length localRules =? 0)%nat
  then
    let* _ := showErrorMessage
                "No local rules found. Please reinstall the extension." in
    ret (mkLoad [] true true)
  else
    let* offline := try_catch
                      (let* response := fetch HEAD in
                       ret (negb (ok response)))
                      (fun _ => ret true) in
    if offline then ret (mkLoad localRules true true)
    else
      let* lastSync := _getLastSync in
      let* needs := compute_needsSync lastSync in
      if negb needs
      then
        let* cachedRulesStr := config_get RULES_CACHE_KEY in
        match cachedRulesStr with
        | Some v =>
            if truthy v
            then
              let* cachedRules := parse (ToString v) in
              ret (mkLoad cachedRules false false)
            else _loadRules_sync localRules needs
        | None => _loadRules_sync localRules needs
        end
      else _loadRules_sync localRules needs.

(** [_loadRules] (115-182).  [localRules] starts as [[]] and is assigned by
    the first statement of the [try] block, so the [catch] arm sees [[]] when
    that statement throws and the assigned value afterwards. *)
Definition _loadRules : M LoadResult :=
  fun w =>
    match _loadLocalRules w with
    | (Throw _, w') => _loadRules_catch [] w'
    | (Ok localRules, w') =>
        try_catch (_loadRules_try localRules)
                  (fun _ => _loadRules_catch localRules) w'
    end.

(** [_sendRules] (95-113) *)
Definition _sendRules : M unit :=
  let* shown := has_panel in
  if negb shown then ret tt
  else
    let* r := _loadRules in
    let* lastSync := _getLastSync in
    postMessage (setRules (rules r) lastSync (needsSync r) (isOffline r)).

(** [_setRule] (256-287).  [workspaceFolders?.[0]] is [undefined] when no
    folder is open. *)
Definition _setRule (rule : Rule) : M unit :=
  fun w =>
    match workspaceFolders w with
    | [] => showErrorMessage "No workspace folder available" w
    | workspaceFolder :: _ =>
        let cursorRulesPath := path_join env workspaceFolder ".cursorrules" in
        (let* present := existsSync cursorRulesPath in
         let* go :=
           (if present
            then
              let* choice :=
                showWarningMessage
                  "A .cursorrules file already exists. Do you want to overwrite it?"
                  ["Yes"; "No"] in
              ret (bool_decide (choice = Some "Yes"))
            else ret true) in
         if negb go then ret tt
         else
           try_catch
             (let* _ := writeFileSync cursorRulesPath (content rule) in
              showInformationMessage
                ("Successfully applied rule: " ++ title rule))
             (fun _ =>
                showErrorMessage
                  "Failed to apply rule. Please check console for details."))
          w
    end.

(** The listener given to [onDidReceiveMessage] in [show] (67-83). *)
Definition onDidReceiveMessage (data : Incoming) : M unit :=
  match data with
  | getRules => _sendRules
  | setRule rule => _setRule rule
  | syncRules => let* _ := _syncRules in ret tt
  | otherMessage _ => ret tt
  end.

(** The listener given to [onDidDispose] in [show] (85-88). *)
Definition onDidDispose : M unit :=
  fun w => (Ok tt, with_panel false w).

(** [show] (44-93), the body of the [cursor-rules.openViewer] command
    (extension.ts, 10-13): reveal the panel when there is one, else create it
    and start the initial load. *)
Definition show : M unit :=
  let* shown := has_panel in
  if shown then ret tt
  else
    let* _ := (fun w => (Ok tt, with_panel true w)) in
    _sendRules.

End Provider.

(** ** What the routines read

    Quantities the statements below speak about, each taken from the code
    that computes it. *)

Section Readings.

Variable env : Env.

(** The rule set [_loadLocalRules] hands to its caller. *)
Definition local_rules (w : World) : list Rule :=
  match fst (_loadLocalRules env w) with
  | Ok rs => rs
  | Throw _ => []
  end.

(** The probe of lines 131-141 reports the endpoint as reachable. *)
Definition probe_ok : bool :=
  match fetch_result env HEAD with
  | NetFails => false
  | NetResponds r => ok r
  end.

(** The stamp [_getLastSync] reads in [w]. *)
Definition stored_lastSync (w : World) : option Z :=
  match fst (_getLastSync w) with
  | Ok v => v
  | Throw _ => None
  end.

(** The value of the expression of line 150 when the clock reads [t]. *)
Definition needsSync_value (lastSync : option Z) (t : Z) : bool :=
  not_lastSync lastSync || (t - default 0 lastSync >? DAY_MS).

(** The index of the next clock reading once line 150 has run. *)
Definition ticks_after_check (lastSync : option Z) (n : nat) : nat :=
  if not_lastSync lastSync then n else S n.

(** The rule list the [GET] of [_syncRules] delivers, if it delivers one. *)
Definition fetched : option (list Rule) :=
  match fetch_result env GET with
  | NetFails => None
  | NetResponds r => if ok r then JSON_parse env (body r) else None
  end.

(** The state in which line 152 is reached: the probe has been issued and
    line 150 has read the clock if it had to. *)
Definition after_check (w : World) : World :=
  let w1 := with_requests (requests w ++ [HEAD]) w in
  if not_lastSync (stored_lastSync w) then w1
  else with_ticks (S (ticks w1)) w1.

(** The prompt raised by [_setRule] before it overwrites. *)
Definition overwrite_prompt : Notification :=
  WarningMessage
    "A .cursorrules file already exists. Do you want to overwrite it?"
    ["Yes"; "No"].

End Readings.

(** ** A test double of the host

    An in-memory stand-in used to run the class on concrete inputs: two
    rules, a codec that knows the documents built from them (compact and
    pretty-printed), a remote endpoint that serves the two-rule document,
    and no I/O faults. *)
Module Sample.

Definition rule_a : Rule :=
  mkRule "Rule A" "a" ["ts"] [] "Always use strict mode."
         (mkAuthor "ann" "https://example.org/ann" None).

Definition rule_b : Rule :=
  mkRule "Rule B" "b" ["py"] ["numpy"] "Prefer list comprehensions."
         (mkAuthor "bob" "https://example.org/bob" None).

Definition parse_doc (text : string) : option (list Rule) :=
  if String.eqb text "[]" then Some []
  else if String.eqb text "[a]" then Some [rule_a]
  else if String.eqb text "[a,b]" then Some [rule_a; rule_b]
  else if String.eqb text "[ a ]" then Some [rule_a]
  else if String.eqb text "[ a, b ]" then Some [rule_a; rule_b]
  else None.

Definition slugs (rs : list Rule) : list string := map slug rs.

Definition stringify_doc (rs : list Rule) : string :=
  "[" ++ String.concat "," (slugs rs) ++ "]".

Definition stringify_pretty_doc (rs : list Rule) : string :=
  "[ " ++ String.concat ", " (slugs rs) ++ " ]".

Definition bundled : string := "/ext/webview-ui/build/rules.json".

Definition serve (text : string) : NetResult :=
  NetResponds (mkResponse true "OK" text).

(** The endpoint is reachable and serves the two-rule document; the clock
    reads [t0], [t0 + 1], ... *)
Definition host (t0 : Z) : Env :=
  mkEnv parse_doc stringify_doc stringify_pretty_doc
        (fun dir file => dir ++ "/" ++ file)
        bundled
        (fun _ => serve "[a,b]")
        (fun n => t0 + Z.of_nat n)
        (fun _ => false) (fun _ => false) (fun _ => false)
        None.

Definition with_fetch (f : Method -> NetResult) (e : Env) : Env :=
  mkEnv (JSON_parse e) (JSON_stringify e) (JSON_stringify_pretty e)
        (path_join e) (RULES_JSON_PATH e) f (Date_now e)
        (readFile_throws e) (writeFile_throws e) (update_rejects e)
        (warning_choice e).

Definition with_write_faults (f : string -> bool) (e : Env) : Env :=
  mkEnv (JSON_parse e) (JSON_stringify e) (JSON_stringify_pretty e)
        (path_join e) (RULES_JSON_PATH e) (fetch_result e) (Date_now e)
        (readFile_throws e) f (update_rejects e) (warning_choice e).

Definition with_update_faults (f : string -> bool) (e : Env) : Env :=
  mkEnv (JSON_parse e) (JSON_stringify e) (JSON_stringify_pretty e)
        (path_join e) (RULES_JSON_PATH e) (fetch_result e) (Date_now e)
        (readFile_throws e) (writeFile_throws e) f (warning_choice e).

Definition with_choice (c : option string) (e : Env) : Env :=
  mkEnv (JSON_parse e) (JSON_stringify e) (JSON_stringify_pretty e)
        (path_join e) (RULES_JSON_PATH e) (fetch_result e) (Date_now e)
        (readFile_throws e) (writeFile_throws e) (update_rejects e) c.

(** A fresh installation: the one-rule bundled file, empty settings, the
    panel open, one workspace folder. *)
Definition fresh : World :=
  mkWorld ∅ {[ bundled := "[a]" ]} ["/work"] true [] [] [] [] 0.

(** Nine o'clock on 2024-01-01 (UTC), in epoch milliseconds. *)
Definition morning : Z := 1704099600000.

(** Settings written by an earlier sync at time [t] that cached [doc]. *)
Definition synced (t : Z) (doc : string) : World :=
  with_config {[ LAST_SYNC_KEY := CfgNum t; RULES_CACHE_KEY := CfgStr doc ]}
              fresh.

(** The endpoint cannot be reached. *)
Definition unreachable (e : Env) : Env := with_fetch (fun _ => NetFails) e.

(** A workspace that already has a [.cursorrules] file. *)
Definition occupied : World :=
  with_files (<[ "/work/.cursorrules" := "old rules" ]> (files fresh)) fresh.

End Sample.

(** ** The panel's side: [App] (the webview script)

    The React component keeps its state in hooks; the state after mounting
    and the reducer [handleMessage] are modelled as a record and a function.
    [new Set(...)] keeps the order of first insertion.  [Array.prototype.sort]
    is stable and is given a comparator that orders by a numeric key, so its
    result is the stable ordering by that key; it is modelled by a stable
    insertion sort. *)
Module App.

Record State := mkState {
  rules : list Rule;
  selectedCategory : string;
  categories : list string;
  searchQuery : string;
  lastSync : option Z;
  isSyncing : bool;
  needsSync : bool;
  isOffline : bool
}.

(** [tags.includes(c)] *)
Definition includes (xs : list string) (x : string) : bool :=
  existsb (String.eqb x) xs.

(** [rules.filter(r => r.tags.includes(c)).length] *)
Definition count_rules (rs : list Rule) (c : string) : nat :=
  length (List.filter (fun r => includes (tags r) c) rs).

(** [Set.prototype.add] on the insertion-ordered contents of a set. *)
Definition set_add (seen : list string) (x : string) : list string :=
  if includes seen x then seen else (seen ++ [x])%list.

(** [Array.from(new Set(xs))] *)
Definition unique (xs : list string) : list string :=
  fold_left set_add xs [].

(** The comparator [(a, b) => countB - countA]. *)
Definition compare_by_count (rs : list Rule) (a b : string) : Z :=
  Z.of_nat (count_rules rs b) - Z.of_nat (count_rules rs a).

Fixpoint insert_sorted (cmp : string -> string -> Z) (x : string)
    (l : list string) : list string :=
  match l with
  | [] => [x]
  | y :: l' =>
      if cmp x y <=? 0 then x :: y :: l' else y :: insert_sorted cmp x l'
  end.

(** [a] may stand before [b] under that comparator: it tags at least as
    many rules. *)
Definition before (rs : list Rule) (a b : string) : Prop :=
  (count_rules rs b <= count_rules rs a)%nat.

(** [xs.sort(cmp)] *)
Definition sort (cmp : string -> string -> Z) (xs : list string)
  : list string :=
  fold_right (insert_sorted cmp) [] xs.

(** The category list built in [handleMessage] (lines 109-118) and, from the
    bundled rules, in the mount effect (lines 61-66). *)
Definition categories_of (rs : list Rule) : list string :=
  "all" :: sort (compare_by_count rs) (unique (flat_map tags rs)).

(** The state once the mount effect has run on the bundled [rulesData]. *)
Definition mounted (rulesData : list Rule) : State :=
  mkState rulesData "all" (categories_of rulesData) "" None false false false.

(** [handleMessage] (lines 87-130). *)
Definition handleMessage (st : State) (message : Outgoing) : State :=
  match message with
  | setRules rs stamp needs offline =>
      mkState rs (selectedCategory st) (categories_of rs) (searchQuery st)
              stamp (isSyncing st) needs offline
  | syncComplete stamp =>
      mkState (rules st) (selectedCategory st) (categories st)
              (searchQuery st) (Some stamp) false false false
  end.

(** [handleSync] (lines 137-140): the new state and the message posted. *)
Definition handleSync (st : State) : State * Incoming :=
  (mkState (rules st) (selectedCategory st) (categories st) (searchQuery st)
           (lastSync st) true (needsSync st) (isOffline st),
   syncRules).

(** [filteredRules] (lines 152-156). *)
Definition filteredRules (st : State) : list Rule :=
  List.filter (fun rule =>
            String.eqb (selectedCategory st) "all"
            || includes (tags rule) (selectedCategory st))
         (rules st).

(** A click on a category button: [setSelectedCategory(category)]. *)
Definition selectCategory (category : string) (st : State) : State :=
  mkState (rules st) category (categories st) (searchQuery st)
          (lastSync st) (isSyncing st) (needsSync st) (isOffline st).

(** The guard of the Sync button: [needsSync && !isOffline] (line 214). *)
Definition sync_button_shown (st : State) : bool :=
  needsSync st && negb (isOffline st).

End App.

(** ** The panel's side: [RuleCard]

    A JavaScript string is a sequence of UTF-16 code units.  [trimStart]
    strips leading white space and line terminators, all of which are single
    code units. *)
Module RuleCard.

(** ECMAScript [WhiteSpace] and [LineTerminator] code units. *)
Definition is_white (c : N) : bool :=
  existsb (N.eqb c)
          [9; 10; 11; 12; 13; 32; 160; 5760; 8232; 8233; 8239; 8287; 12288;
           65279]%N
  || ((8192 <=? c) && (c <=? 8202))%N.

(** [line.trimStart()] *)
Fixpoint trimStart (line : list N) : list N :=
  match line with
  | [] => []
  | c :: rest => if is_white c then trimStart rest else line
  end.

(** [content.split('\n')] *)
Fixpoint split_lines (s : list N) : list (list N) :=
  match s with
  | [] => [[]]
  | c :: s' =>
      if (c =? 10)%N then [] :: split_lines s'
      else match split_lines s' with
           | l :: ls => (c :: l) :: ls
           | [] => [[c]]
           end
  end.

(** [lines.join('\n')] *)
Fixpoint join_lines (ls : list (list N)) : list N :=
  match ls with
  | [] => []
  | [l] => l
  | l :: ls' => (l ++ 10%N :: join_lines ls')%list
  end.

(** [removeIndentation] (RuleCard, lines 29-31). *)
Definition removeIndentation (content : list N) : list N :=
  join_lines (map trimStart (split_lines content)).

End RuleCard.

(** ** More test doubles *)
Module Sample2.

(** A codec that also reads the pretty-printed empty document. *)
Definition parse_doc (text : string) : option (list Rule) :=
  if String.eqb text "[  ]" then Some [] else Sample.parse_doc text.

Definition with_parse (f : string -> option (list Rule)) (e : Env) : Env :=
  mkEnv f (JSON_stringify e) (JSON_stringify_pretty e)
        (path_join e) (RULES_JSON_PATH e) (fetch_result e) (Date_now e)
        (readFile_throws e) (writeFile_throws e) (update_rejects e)
        (warning_choice e).

Definition host (t0 : Z) : Env := with_parse parse_doc (Sample.host t0).

(** The endpoint serves an empty array. *)
Definition serves_nothing (e : Env) : Env :=
  Sample.with_fetch (fun _ => Sample.serve "[]") e.


(** No folder is open. *)
Definition no_workspace : World :=
  mkWorld (config Sample.fresh) (files Sample.fresh) [] (panel Sample.fresh)
          (posted Sample.fresh) (notifications Sample.fresh)
          (requests Sample.fresh) (writes Sample.fresh) (ticks Sample.fresh).

End Sample2.

(** ** How the pieces behave *)

Section Steps.

Variable env : Env.

(** Reading the bundled file never throws and changes nothing. *)
Lemma _loadLocalRules_eq (w : World) :
  _loadLocalRules env w = (Ok (local_rules env w), w).
Proof.
  unfold local_rules, _loadLocalRules, try_catch, bind, existsSync,
    readFileSync, parse, ret, throw.
  repeat (case_match; simplify_eq/=); reflexivity.
Qed.

Lemma probe_eq (w : World) :
  try_catch (let* response := fetch env HEAD in ret (negb (ok response)))
            (fun _ => ret true) w
  = (Ok (negb (probe_ok env)), with_requests (requests w ++ [HEAD]) w).
Proof.
  unfold try_catch, bind, fetch, probe_ok, ret.
  destruct (fetch_result env HEAD); reflexivity.
Qed.

Lemma _getLastSync_eq (w : World) :
  _getLastSync w
  = (Ok (match config w !! LAST_SYNC_KEY with
         | Some (CfgNum n) => Some n
         | _ => None
         end), w).
Proof. reflexivity. Qed.

(** [_loadRules] is its [try] block run on the local rules, under its
    [catch] arm. *)
Lemma _loadRules_unfold (w : World) :
  _loadRules env w
  = try_catch (_loadRules_try env (local_rules env w))
              (fun _ => _loadRules_catch (local_rules env w)) w.
Proof. unfold _loadRules. rewrite _loadLocalRules_eq. reflexivity. Qed.

(** Every [return] of the [try] block carries equal flags. *)
Lemma _loadRules_try_flags (l : list Rule) (w w' : World) (r : LoadResult) :
  _loadRules_try env l w = (Ok r, w') -> needsSync r = isOffline r.
Proof.
  unfold _loadRules_try, _loadRules_sync.
  destruct (length l =? 0)%nat.
  { cbn. intros [= <- _]. reflexivity. }
  unfold bind at 1. rewrite probe_eq.
  destruct (negb (probe_ok env)).
  { cbn. intros [= <- _]. reflexivity. }
  unfold bind, try_catch, ret.
  intros H. repeat (case_match; simplify_eq/=); reflexivity.
Qed.

(** Line 150 when the stored stamp is a non-zero number: one clock reading
    is consumed and compared. *)
Lemma compute_needsSync_stamp (t : Z) (w : World) :
  t <> 0 ->
  compute_needsSync env (Some t) w
  = (Ok (Date_now env (ticks w) - t >? DAY_MS), with_ticks (S (ticks w)) w).
Proof.
  intros Ht. unfold compute_needsSync, not_lastSync.
  destruct (Z.eqb_spec t 0); [contradiction|]. reflexivity.
Qed.

Lemma length_eqb_0 {A} (l : list A) : (length l =? 0)%nat = false <-> l <> [].
Proof. destruct l; cbn; split; congruence. Qed.

Lemma _getLastSync_stored (w : World) :
  _getLastSync w = (Ok (stored_lastSync w), w).
Proof. reflexivity. Qed.

Lemma compute_needsSync_eq (lastSync : option Z) (w : World) :
  compute_needsSync env lastSync w
  = (Ok (needsSync_value lastSync (Date_now env (ticks w))),
     if not_lastSync lastSync then w else with_ticks (S (ticks w)) w).
Proof.
  unfold compute_needsSync, needsSync_value.
  destruct (not_lastSync lastSync); reflexivity.
Qed.

(** What the expression of line 150 amounts to. *)
Lemma needsSync_value_true (lastSync : option Z) (t : Z) :
  needsSync_value lastSync t = true <->
  lastSync = None \/ lastSync = Some 0 \/
  exists stamp, lastSync = Some stamp /\ t - stamp > DAY_MS.
Proof.
  unfold needsSync_value, not_lastSync.
  destruct lastSync as [stamp|]; cbn [default from_option id].
  - rewrite orb_true_iff, Z.eqb_eq, Z.gtb_ltb, Z.ltb_lt. split.
    + intros [->|H]; [right; left; reflexivity|].
      right; right. exists stamp. split; [reflexivity|lia].
    + intros [[=]|[[= ->]|[x [[= <-] H]]]]; [left; reflexivity|right; lia].
  - cbn. split; [left; reflexivity|reflexivity].
Qed.

(** A failed fetch (rejected request, non-success status or unparsable body)
    makes [_syncRules] throw after the request and nothing else. *)
Lemma _syncRules_fetch_fails (w : World) :
  fetched env = None ->
  exists e,
    _syncRules env w = (Throw e, with_requests (requests w ++ [GET]) w).
Proof.
  unfold fetched, _syncRules, try_catch, bind, fetch, parse, throw.
  destruct (fetch_result env GET) as [|r]; [eexists; reflexivity|].
  destruct (ok r); cbn [negb]; [|eexists; reflexivity].
  intros ->. eexists; reflexivity.
Qed.

(** A delivered rule list whose local save fails: [_syncRules] throws with
    the configuration untouched. *)
Lemma _syncRules_save_fails (w : World) (rs : list Rule) :
  fetched env = Some rs ->
  writeFile_throws env (RULES_JSON_PATH env) = true ->
  exists w',
    _syncRules env w = (Throw (Error "Failed to save rules locally"), w') /\
    config w' = config w /\ files w' = files w.
Proof.
  unfold fetched, _syncRules, try_catch, bind, fetch, parse, throw,
    writeFileSync, ret.
  destruct (fetch_result env GET) as [|r]; [discriminate|].
  destruct (ok r); cbn [negb]; [|discriminate].
  intros -> ->. eexists. split; [reflexivity|]. split; reflexivity.
Qed.

(** The run of [_syncRules] once the list is delivered and saved locally. *)
Lemma _syncRules_saved (w : World) (rs : list Rule) :
  fetched env = Some rs ->
  writeFile_throws env (RULES_JSON_PATH env) = false ->
  exists r w',
    _syncRules env w = (r, w') /\
    files w' = <[RULES_JSON_PATH env := JSON_stringify_pretty env rs]> (files w) /\
    requests w' = (requests w ++ [GET])%list /\
    if update_rejects env RULES_CACHE_KEY
    then r = Throw ConfigError /\ config w' = config w
    else if update_rejects env LAST_SYNC_KEY
    then r = Throw ConfigError /\
         config w'
         = <[RULES_CACHE_KEY := CfgStr (JSON_stringify env rs)]> (config w)
    else r = Ok rs /\
         config w'
         = <[LAST_SYNC_KEY := CfgNum (Date_now env (ticks w))]>
             (<[RULES_CACHE_KEY := CfgStr (JSON_stringify env rs)]> (config w)).
Proof.
  unfold fetched, _syncRules, _setLastSync, try_catch, bind, fetch, parse,
    throw, writeFileSync, config_update, now, has_panel, postMessage,
    showInformationMessage, notify, ret.
  destruct (fetch_result env GET) as [|resp]; [discriminate|].
  destruct (ok resp); cbn [negb]; [|discriminate].
  intros -> ->.
  destruct (update_rejects env RULES_CACHE_KEY);
    [eexists _, _; repeat split; reflexivity|].
  destruct (update_rejects env LAST_SYNC_KEY);
    [eexists _, _; repeat split; reflexivity|].
  cbn. destruct (panel w); eexists _, _; repeat split; reflexivity.
Qed.

Lemma after_check_fields (w : World) :
  config (after_check w) = config w /\
  files (after_check w) = files w /\
  writes (after_check w) = writes w /\
  requests (after_check w) = (requests w ++ [HEAD])%list /\
  ticks (after_check w) = ticks_after_check (stored_lastSync w) (ticks w).
Proof.
  unfold after_check, ticks_after_check.
  destruct (not_lastSync (stored_lastSync w)); repeat split.
Qed.

(** With local rules, a successful probe and a sync that is due,
    [_loadRules] is [_syncRules] under the [catch] of lines 168-171. *)
Lemma _loadRules_sync_due (w : World) :
  local_rules env w <> [] ->
  probe_ok env = true ->
  needsSync_value (stored_lastSync w) (Date_now env (ticks w)) = true ->
  _loadRules env w
  = match _syncRules env (after_check w) with
    | (Ok syncedRules, w') => (Ok (mkLoad syncedRules false false), w')
    | (Throw _, w') => (Ok (mkLoad (local_rules env w) true true), w')
    end.
Proof.
  intros Hlocal Hprobe Hdue.
  rewrite _loadRules_unfold. unfold try_catch at 1, _loadRules_try.
  apply length_eqb_0 in Hlocal. rewrite Hlocal.
  unfold bind at 1. rewrite probe_eq, Hprobe. cbn [negb].
  unfold bind at 1. rewrite _getLastSync_stored.
  change (stored_lastSync (with_requests (requests w ++ [HEAD]) w))
    with (stored_lastSync w).
  unfold bind at 1. rewrite compute_needsSync_eq.
  cbn [ticks with_requests]. rewrite Hdue. cbn [negb].
  unfold _loadRules_sync, try_catch, bind, ret, after_check.
  destruct (_syncRules env _) as [[rs|e] w']; reflexivity.
Qed.

Lemma fetched_Some (rs : list Rule) :
  fetched env = Some rs <->
  exists resp,
    fetch_result env GET = NetResponds resp /\ ok resp = true /\
    JSON_parse env (body resp) = Some rs.
Proof.
  unfold fetched. split.
  - destruct (fetch_result env GET) as [|resp]; [discriminate|].
    destruct (ok resp) eqn:Hok; [|discriminate].
    intros H. exists resp. auto.
  - intros (resp & -> & -> & H). exact H.
Qed.

(** [_loadRules] always returns a result. *)
Lemma _loadRules_total (w : World) :
  exists r w', _loadRules env w = (Ok r, w') /\ needsSync r = isOffline r.
Proof.
  rewrite _loadRules_unfold. unfold try_catch.
  destruct (_loadRules_try env (local_rules env w) w) as [[r|e] w1] eqn:Htry.
  - exists r, w1. apply _loadRules_try_flags in Htry. auto.
  - eexists _, _. split; reflexivity.
Qed.

End Steps.

(** ** Properties of the specification *)

(** C10.  Whatever path [_loadRules] takes (no local rules, offline, cached,
    freshly synced, failed sync, default fallback, caught exception) it
    returns normally and the returned [needsSync] equals the returned
    [isOffline]; so no result has [needsSync = true] with
    [isOffline = false]. *)
Theorem loadRules_needsSync_eq_isOffline (env : Env) (w : World) :
  exists r w',
    _loadRules env w = (Ok r, w') /\
    needsSync r = isOffline r /\
    ~ (needsSync r = true /\ isOffline r = false).
Proof.
  destruct (_loadRules_total env w) as (r & w' & Hrun & Hflags).
  exists r, w'. split; [exact Hrun|]. split; [exact Hflags|].
  rewrite Hflags. intros [-> [=]].
Qed.

(** C2.  When the reachability probe fails (the request is rejected or the
    response is not a success), [_loadRules] returns the local bundled rule
    set with [needsSync = true] and [isOffline = true], whatever the
    configuration holds; the configuration and the files are left as they
    were. *)
Theorem loadRules_offline (env : Env) (w : World) :
  probe_ok env = false ->
  exists w',
    _loadRules env w = (Ok (mkLoad (local_rules env w) true true), w') /\
    config w' = config w /\ files w' = files w.
Proof.
  intros Hprobe. rewrite _loadRules_unfold.
  unfold try_catch, _loadRules_try.
  destruct (local_rules env w) as [|r l] eqn:Hlocal.
  - eexists. cbn. split; [reflexivity|]. split; reflexivity.
  - cbn [length Nat.eqb]. unfold bind at 1.
    rewrite probe_eq, Hprobe. cbn.
    eexists. split; [reflexivity|]. split; reflexivity.
Qed.

Lemma loadRules_offline_witness :
  exists w',
    _loadRules (Sample.unreachable (Sample.host Sample.morning))
               (Sample.synced (Sample.morning - 1000) "[a,b]")
    = (Ok (mkLoad [Sample.rule_a] true true), w') /\
    config w' = config (Sample.synced (Sample.morning - 1000) "[a,b]") /\
    files w' = files (Sample.synced (Sample.morning - 1000) "[a,b]").
Proof.
  apply (loadRules_offline
           (Sample.unreachable (Sample.host Sample.morning))
           (Sample.synced (Sample.morning - 1000) "[a,b]")).
  reflexivity.
Defined.

(** C1, as the code has it.  When the local rules are not empty (so the
    probe is made), the probe succeeds, the stored time stamp is a non-zero
    number no more than 24 hours behind the clock reading, and the cache key
    holds a non-empty string that parses to a rule set, [_loadRules] issues
    the [HEAD] probe and nothing else, returns exactly the parsed cache with
    [needsSync = false] and [isOffline = false], and leaves configuration
    and files as they were.  (A stored stamp of [0] is falsy under
    [!lastSync] and counts as absent.) *)
Theorem loadRules_uses_cache (env : Env) (w : World) (t : Z) (s : string)
    (cached : list Rule) :
  local_rules env w <> [] ->
  probe_ok env = true ->
  config w !! LAST_SYNC_KEY = Some (CfgNum t) ->
  t <> 0 ->
  Date_now env (ticks w) - t <= DAY_MS ->
  config w !! RULES_CACHE_KEY = Some (CfgStr s) ->
  s <> "" ->
  JSON_parse env s = Some cached ->
  exists w',
    _loadRules env w = (Ok (mkLoad cached false false), w') /\
    requests w' = (requests w ++ [HEAD])%list /\
    config w' = config w /\ files w' = files w /\ writes w' = writes w.
Proof.
  intros Hlocal Hprobe Hstamp Ht Hfresh Hcache Hs Hparse.
  rewrite _loadRules_unfold. unfold try_catch, _loadRules_try.
  apply length_eqb_0 in Hlocal. rewrite Hlocal.
  unfold bind at 1. rewrite probe_eq, Hprobe. cbn [negb].
  unfold bind at 1. rewrite _getLastSync_eq. cbn [config with_requests].
  rewrite Hstamp.
  unfold bind at 1. rewrite compute_needsSync_stamp by exact Ht.
  cbn [ticks with_requests].
  replace (Date_now env (ticks w) - t >? DAY_MS) with false
    by (symmetry; rewrite Z.gtb_ltb; apply Z.ltb_ge; exact Hfresh).
  cbn [negb]. unfold bind at 1, config_get. cbn [config with_ticks with_requests].
  rewrite Hcache. cbn [truthy ToString].
  apply String.eqb_neq in Hs. rewrite Hs. cbn [negb].
  unfold bind, parse. rewrite Hparse. cbn.
  eexists. split; [reflexivity|]. repeat split.
Qed.

Lemma loadRules_uses_cache_witness :
  exists w',
    _loadRules (Sample.host Sample.morning)
               (Sample.synced (Sample.morning - 1000) "[a,b]")
    = (Ok (mkLoad [Sample.rule_a; Sample.rule_b] false false), w') /\
    requests w'
    = (requests (Sample.synced (Sample.morning - 1000) "[a,b]") ++ [HEAD])%list /\
    config w' = config (Sample.synced (Sample.morning - 1000) "[a,b]") /\
    files w' = files (Sample.synced (Sample.morning - 1000) "[a,b]") /\
    writes w' = writes (Sample.synced (Sample.morning - 1000) "[a,b]").
Proof.
  apply (loadRules_uses_cache
           (Sample.host Sample.morning)
           (Sample.synced (Sample.morning - 1000) "[a,b]")
           (Sample.morning - 1000) "[a,b]").
  - vm_compute. discriminate.
  - reflexivity.
  - vm_compute. reflexivity.
  - vm_compute. discriminate.
  - vm_compute. discriminate.
  - vm_compute. reflexivity.
  - discriminate.
  - reflexivity.
Defined.

(** C1 as stated fails at a stored stamp of [0]: with the clock at 1000 ms
    the stamp is within 24 hours, the probe succeeds and the cache holds the
    one-rule document, yet [!lastSync] makes the routine fetch the rule list
    ([GET]) and return the fetched two-rule set instead of the cache. *)
Lemma loadRules_zero_stamp_fetches :
  local_rules (Sample.host 1000) (Sample.synced 0 "[a]") <> [] /\
  probe_ok (Sample.host 1000) = true /\
  config (Sample.synced 0 "[a]") !! LAST_SYNC_KEY = Some (CfgNum 0) /\
  0 <= Date_now (Sample.host 1000) (ticks (Sample.synced 0 "[a]")) - 0
    <= DAY_MS /\
  config (Sample.synced 0 "[a]") !! RULES_CACHE_KEY = Some (CfgStr "[a]") /\
  JSON_parse (Sample.host 1000) "[a]" = Some [Sample.rule_a] /\
  fst (_loadRules (Sample.host 1000) (Sample.synced 0 "[a]"))
  = Ok (mkLoad [Sample.rule_a; Sample.rule_b] false false) /\
  fst (_loadRules (Sample.host 1000) (Sample.synced 0 "[a]"))
  <> Ok (mkLoad [Sample.rule_a] false false) /\
  requests (snd (_loadRules (Sample.host 1000) (Sample.synced 0 "[a]")))
  = [HEAD; GET].
Proof.
  repeat split; try (vm_compute; (reflexivity || discriminate)).
Qed.

(** C3, as the code has it.  For every stamp handed to line 150 and every
    clock reading, the computed flag is true exactly when the stamp is
    absent, or is [0] (falsy under [!lastSync]), or lies more than
    86,400,000 ms behind the reading; for a non-zero stamp it is false at
    exactly 24 hours.  The stamp is absent exactly when the stored value is
    not a number. *)
Theorem needsSync_iff (env : Env) (w : World) (lastSync : option Z) :
  exists w',
    compute_needsSync env lastSync w
    = (Ok (needsSync_value lastSync (Date_now env (ticks w))), w') /\
    (needsSync_value lastSync (Date_now env (ticks w)) = true <->
     lastSync = None \/ lastSync = Some 0 \/
     exists stamp,
       lastSync = Some stamp /\ Date_now env (ticks w) - stamp > DAY_MS) /\
    (forall stamp,
       stamp <> 0 ->
       needsSync_value (Some stamp) (stamp + 86400000) = false) /\
    (stored_lastSync w = None <->
     forall n, config w !! LAST_SYNC_KEY <> Some (CfgNum n)).
Proof.
  rewrite compute_needsSync_eq. eexists. split; [reflexivity|].
  split; [apply needsSync_value_true|]. split.
  - intros stamp Hstamp. unfold needsSync_value, not_lastSync. cbn [default from_option id].
    destruct (Z.eqb_spec stamp 0); [contradiction|]. cbn [orb].
    rewrite Z.gtb_ltb. apply Z.ltb_ge. unfold DAY_MS. lia.
  - unfold stored_lastSync. rewrite _getLastSync_eq. cbn [fst].
    destruct (config w !! LAST_SYNC_KEY) as [[| |n|]|]; split;
      try congruence; try discriminate.
    intros H. exfalso. apply (H n). reflexivity.
Qed.

(** C3 as stated fails at a stored stamp of [0]: with the clock at 1000 ms
    the stamp is present and only 1000 ms old, yet the flag is true. *)
Lemma needsSync_zero_stamp :
  stored_lastSync (Sample.synced 0 "[a]") = Some 0 /\
  Date_now (Sample.host 1000) (ticks (Sample.synced 0 "[a]")) = 1000 /\
  fst (compute_needsSync (Sample.host 1000) (Some 0)
                         (Sample.synced 0 "[a]")) = Ok true /\
  ~ (Some 0 = @None Z \/ 1000 - 0 > 86400000).
Proof.
  split; [vm_compute; reflexivity|]. split; [reflexivity|].
  split; [reflexivity|]. intros [H|H]; [discriminate|lia].
Qed.

(** C5.  When sync is due and the fetch fails (the request is rejected, the
    status is not a success, or the body does not parse), [_loadRules]
    returns the local bundled rules with [needsSync = true] and
    [isOffline = true], and the failed attempt changes neither the
    configuration (time stamp, cached rules) nor any file, the bundled
    rules file included; no write is even attempted. *)
Theorem loadRules_fetch_failure (env : Env) (w : World) :
  local_rules env w <> [] ->
  probe_ok env = true ->
  needsSync_value (stored_lastSync w) (Date_now env (ticks w)) = true ->
  (fetch_result env GET = NetFails \/
   (exists r, fetch_result env GET = NetResponds r /\ ok r = false) \/
   (exists r, fetch_result env GET = NetResponds r /\ ok r = true /\
              JSON_parse env (body r) = None)) ->
  exists w',
    _loadRules env w = (Ok (mkLoad (local_rules env w) true true), w') /\
    config w' = config w /\ files w' = files w /\ writes w' = writes w.
Proof.
  intros Hlocal Hprobe Hdue Hfail.
  rewrite _loadRules_sync_due by assumption.
  assert (Hnone : fetched env = None).
  { unfold fetched.
    destruct Hfail as [->|[(r & -> & ->)|(r & -> & -> & ->)]]; reflexivity. }
  destruct (_syncRules_fetch_fails env (after_check w) Hnone) as [e ->].
  destruct (after_check_fields w) as (Hc & Hf & Hw & _).
  eexists. split; [reflexivity|]. cbn. auto.
Qed.

Lemma loadRules_fetch_failure_witness :
  exists w',
    _loadRules
      (Sample.with_fetch
         (fun m => match m with
                   | HEAD => Sample.serve ""
                   | GET => NetResponds (mkResponse false "Not Found" "")
                   end)
         (Sample.host Sample.morning))
      (Sample.synced (Sample.morning - 90000000) "[a,b]")
    = (Ok (mkLoad [Sample.rule_a] true true), w') /\
    config w' = config (Sample.synced (Sample.morning - 90000000) "[a,b]") /\
    files w' = files (Sample.synced (Sample.morning - 90000000) "[a,b]") /\
    writes w' = writes (Sample.synced (Sample.morning - 90000000) "[a,b]").
Proof.
  apply (loadRules_fetch_failure
           (Sample.with_fetch
              (fun m => match m with
                        | HEAD => Sample.serve ""
                        | GET => NetResponds (mkResponse false "Not Found" "")
                        end)
              (Sample.host Sample.morning))
           (Sample.synced (Sample.morning - 90000000) "[a,b]")).
  - vm_compute. discriminate.
  - reflexivity.
  - vm_compute. reflexivity.
  - right. left. eexists. split; reflexivity.
Defined.

(** C4, as the code has it.  When the endpoint is reachable, sync is due,
    the fetch and the parse succeed, and moreover the local save and both
    configuration updates go through, [_loadRules] stores the fetched rules
    under the cache key, stores the clock reading taken at that moment under
    the time-stamp key, rewrites the bundled file, and returns the fetched
    rule set with [needsSync = false] and [isOffline = false]. *)
Theorem loadRules_sync_success (env : Env) (w : World) (resp : Response)
    (rs : list Rule) :
  local_rules env w <> [] ->
  probe_ok env = true ->
  needsSync_value (stored_lastSync w) (Date_now env (ticks w)) = true ->
  fetch_result env GET = NetResponds resp ->
  ok resp = true ->
  JSON_parse env (body resp) = Some rs ->
  writeFile_throws env (RULES_JSON_PATH env) = false ->
  update_rejects env RULES_CACHE_KEY = false ->
  update_rejects env LAST_SYNC_KEY = false ->
  exists w',
    _loadRules env w = (Ok (mkLoad rs false false), w') /\
    config w'
    = <[LAST_SYNC_KEY :=
          CfgNum (Date_now env
                    (ticks_after_check (stored_lastSync w) (ticks w)))]>
        (<[RULES_CACHE_KEY := CfgStr (JSON_stringify env rs)]> (config w)) /\
    files w'
    = <[RULES_JSON_PATH env := JSON_stringify_pretty env rs]> (files w).
Proof.
  intros Hlocal Hprobe Hdue Hget Hok Hparse Hwrite Hcache Hstamp.
  rewrite _loadRules_sync_due by assumption.
  assert (Hrs : fetched env = Some rs) by (apply fetched_Some; eauto).
  destruct (_syncRules_saved env (after_check w) rs Hrs Hwrite)
    as (r & w' & -> & Hfiles & _ & Hcfg).
  rewrite Hcache, Hstamp in Hcfg. destruct Hcfg as [-> Hcfg].
  destruct (after_check_fields w) as (Hc & Hf & _ & _ & Ht).
  exists w'. split; [reflexivity|].
  rewrite Hcfg, Hfiles, Hc, Hf, Ht. split; reflexivity.
Qed.

(** The example of the specification: no stored stamp, a one-rule bundled
    set, a reachable endpoint serving two rules.  The result is the two-rule
    set and the cache afterwards parses to those two rules. *)
Lemma loadRules_sync_success_witness :
  exists w' s,
    _loadRules (Sample.host Sample.morning) Sample.fresh
    = (Ok (mkLoad [Sample.rule_a; Sample.rule_b] false false), w') /\
    config w' !! RULES_CACHE_KEY = Some (CfgStr s) /\
    JSON_parse (Sample.host Sample.morning) s
    = Some [Sample.rule_a; Sample.rule_b] /\
    config w' !! LAST_SYNC_KEY = Some (CfgNum Sample.morning).
Proof.
  destruct (loadRules_sync_success
              (Sample.host Sample.morning) Sample.fresh
              (mkResponse true "OK" "[a,b]")
              [Sample.rule_a; Sample.rule_b])
    as (w' & Hrun & Hcfg & _).
  - vm_compute. discriminate.
  - reflexivity.
  - reflexivity.
  - reflexivity.
  - reflexivity.
  - reflexivity.
  - reflexivity.
  - reflexivity.
  - reflexivity.
  - exists w', "[a,b]". split; [exact Hrun|]. rewrite Hcfg.
    split; [vm_compute; reflexivity|].
    split; [reflexivity|vm_compute; reflexivity].
Defined.

(** C4 as stated fails when the bundled file cannot be written: in the
    example of the specification the fetch and the parse succeed, yet the
    routine returns the one-rule local set with both flags true and stores
    nothing in the configuration. *)
Lemma loadRules_save_failure_falls_back :
  local_rules (Sample.with_write_faults (fun _ => true)
                 (Sample.host Sample.morning)) Sample.fresh
  = [Sample.rule_a] /\
  probe_ok (Sample.with_write_faults (fun _ => true)
              (Sample.host Sample.morning)) = true /\
  stored_lastSync Sample.fresh = None /\
  fetched (Sample.with_write_faults (fun _ => true)
             (Sample.host Sample.morning))
  = Some [Sample.rule_a; Sample.rule_b] /\
  fst (_loadRules (Sample.with_write_faults (fun _ => true)
                     (Sample.host Sample.morning)) Sample.fresh)
  = Ok (mkLoad [Sample.rule_a] true true) /\
  fst (_loadRules (Sample.with_write_faults (fun _ => true)
                     (Sample.host Sample.morning)) Sample.fresh)
  <> Ok (mkLoad [Sample.rule_a; Sample.rule_b] false false) /\
  config (snd (_loadRules (Sample.with_write_faults (fun _ => true)
                             (Sample.host Sample.morning)) Sample.fresh))
    !! RULES_CACHE_KEY = None /\
  config (snd (_loadRules (Sample.with_write_faults (fun _ => true)
                             (Sample.host Sample.morning)) Sample.fresh))
    !! LAST_SYNC_KEY = None.
Proof.
  repeat split; try (vm_compute; (reflexivity || discriminate)).
Qed.

(** C6, as the code has it.  A sync attempt touches the two configuration
    keys only after the fetch, the parse and the local save have succeeded,
    and it updates them one after the other: first the cached rules, then
    the time stamp.  So an attempt either leaves the configuration as it was
    (and throws), or has updated both keys (and returns the fetched rules),
    or - when the cache update is accepted and the stamp update is
    rejected - has updated the cache key alone (and throws).  The stamp is
    never updated without the cache. *)
Theorem syncRules_config_updates (env : Env) (w : World) :
  exists r w',
    _syncRules env w = (r, w') /\
    (((exists e, r = Throw e) /\ config w' = config w) \/
     exists resp rs,
       fetch_result env GET = NetResponds resp /\ ok resp = true /\
       JSON_parse env (body resp) = Some rs /\
       writeFile_throws env (RULES_JSON_PATH env) = false /\
       update_rejects env RULES_CACHE_KEY = false /\
       ((update_rejects env LAST_SYNC_KEY = true /\
         r = Throw ConfigError /\
         config w'
         = <[RULES_CACHE_KEY := CfgStr (JSON_stringify env rs)]> (config w)) \/
        (update_rejects env LAST_SYNC_KEY = false /\
         r = Ok rs /\
         config w'
         = <[LAST_SYNC_KEY := CfgNum (Date_now env (ticks w))]>
             (<[RULES_CACHE_KEY := CfgStr (JSON_stringify env rs)]>
                (config w))))).
Proof.
  destruct (fetched env) as [rs|] eqn:Hrs.
  - destruct (writeFile_throws env (RULES_JSON_PATH env)) eqn:Hwrite.
    + destruct (_syncRules_save_fails env w rs Hrs Hwrite)
        as (w' & -> & Hcfg & _).
      eexists _, w'. split; [reflexivity|]. left. eauto.
    + destruct (_syncRules_saved env w rs Hrs Hwrite)
        as (r & w' & -> & _ & _ & Hcfg).
      exists r, w'. split; [reflexivity|].
      apply fetched_Some in Hrs. destruct Hrs as (resp & Hget & Hok & Hparse).
      destruct (update_rejects env RULES_CACHE_KEY) eqn:Hcache.
      { destruct Hcfg as [-> Hcfg]. left. eauto. }
      right. exists resp, rs. repeat (split; [assumption || reflexivity|]).
      destruct (update_rejects env LAST_SYNC_KEY);
        destruct Hcfg as [-> Hcfg]; [left|right]; auto.
  - destruct (_syncRules_fetch_fails env w Hrs) as [e ->].
    eexists _, _. split; [reflexivity|]. left. eauto.
Qed.

(** C6 as stated fails when the second update is rejected: on a fresh
    installation whose settings accept the cache but reject the time stamp,
    the attempt throws, the cache key now holds the fetched document and
    the time-stamp key is still unset. *)
Lemma syncRules_updates_cache_alone :
  fst (_syncRules
         (Sample.with_update_faults (String.eqb LAST_SYNC_KEY)
            (Sample.host Sample.morning)) Sample.fresh)
  = Throw ConfigError /\
  config Sample.fresh !! RULES_CACHE_KEY = None /\
  config Sample.fresh !! LAST_SYNC_KEY = None /\
  config (snd (_syncRules
                 (Sample.with_update_faults (String.eqb LAST_SYNC_KEY)
                    (Sample.host Sample.morning)) Sample.fresh))
    !! RULES_CACHE_KEY = Some (CfgStr "[a,b]") /\
  config (snd (_syncRules
                 (Sample.with_update_faults (String.eqb LAST_SYNC_KEY)
                    (Sample.host Sample.morning)) Sample.fresh))
    !! LAST_SYNC_KEY = None.
Proof.
  repeat split; vm_compute; reflexivity.
Qed.

(** ** The message boundary *)

(** [_sendRules] never throws: [_loadRules] turns every failure into a
    result. *)
Lemma _sendRules_total (env : Env) (w : World) :
  exists w', _sendRules env w = (Ok tt, w').
Proof.
  unfold _sendRules, bind at 1, has_panel.
  destruct (panel w); cbn [negb]; [|eexists; reflexivity].
  unfold bind at 1.
  destruct (_loadRules_total env w) as (r & w1 & -> & _).
  eexists. reflexivity.
Qed.

(** [_setRule] never throws: a failed write is reported, not raised. *)
Lemma _setRule_total (env : Env) (rule : Rule) (w : World) :
  exists w', _setRule env rule w = (Ok tt, w').
Proof.
  unfold _setRule.
  destruct (workspaceFolders w) as [|folder rest]; [eexists; reflexivity|].
  unfold bind, try_catch, existsSync, showWarningMessage, writeFileSync,
    showInformationMessage, showErrorMessage, notify, ret, bind.
  repeat (case_match; simplify_eq/=); eexists; reflexivity.
Qed.

(** The [getRules] and [setRule] messages and the open command always
    complete normally. *)
Lemma handlers_that_catch (env : Env) (w : World) :
  (exists w', onDidReceiveMessage env getRules w = (Ok tt, w')) /\
  (forall rule, exists w', onDidReceiveMessage env (setRule rule) w = (Ok tt, w')) /\
  (exists w', show env w = (Ok tt, w')).
Proof.
  split; [apply _sendRules_total|]. split; [intros; apply _setRule_total|].
  unfold show, bind at 1, has_panel.
  destruct (panel w); [eexists; reflexivity|].
  unfold bind at 1. apply _sendRules_total.
Qed.

(** Whenever the fetch fails, the [syncRules] message ends in the exception
    that [_syncRules] re-throws, with no notification raised. *)
Lemma syncRules_message_unguarded (env : Env) (w : World) :
  fetched env = None ->
  exists e w',
    onDidReceiveMessage env syncRules w = (Throw e, w') /\
    notifications w' = notifications w.
Proof.
  intros Hnone. cbn [onDidReceiveMessage]. unfold bind.
  destruct (_syncRules_fetch_fails env w Hnone) as [e ->].
  eexists _, _. split; reflexivity.
Qed.

(** The [syncRules] case of the listener is not guarded: called with the
    endpoint out of reach, the error that [_syncRules] re-throws leaves the
    listener, and no notification is raised. *)
Theorem syncRules_message_error_escapes :
  fst (onDidReceiveMessage
         (Sample.unreachable (Sample.host Sample.morning))
         syncRules Sample.fresh)
  = Throw FetchError /\
  notifications
    (snd (onDidReceiveMessage
            (Sample.unreachable (Sample.host Sample.morning))
            syncRules Sample.fresh))
  = notifications Sample.fresh.
Proof. split; reflexivity. Qed.

(** ** The rule applier *)

(** C8.  Applying a rule in a workspace whose root has no [.cursorrules]
    file raises no prompt and issues exactly one write, of the rule's
    [content] and nothing else, to that path; unless the file system refuses
    the write, the file afterwards holds exactly that content and the only
    notification is the success message. *)
Theorem setRule_new_file (env : Env) (rule : Rule) (w : World)
    (folder : string) (others : list string) :
  workspaceFolders w = folder :: others ->
  files w !! path_join env folder ".cursorrules" = None ->
  exists w',
    _setRule env rule w = (Ok tt, w') /\
    writes w'
    = (writes w ++ [(path_join env folder ".cursorrules", content rule)])%list /\
    (forall n, In n (notifications w') ->
       In n (notifications w) \/
       n = InformationMessage ("Successfully applied rule: " ++ title rule) \/
       n = ErrorMessage
             "Failed to apply rule. Please check console for details.") /\
    (writeFile_throws env (path_join env folder ".cursorrules") = false ->
     files w'
     = <[path_join env folder ".cursorrules" := content rule]> (files w) /\
     notifications w'
     = (notifications w
          ++ [InformationMessage
                ("Successfully applied rule: " ++ title rule)])%list).
Proof.
  intros Hfolder Hfile. unfold _setRule. rewrite Hfolder.
  unfold bind at 1, existsSync. rewrite Hfile.
  rewrite bool_decide_eq_false_2 by (intros [x [=]]).
  unfold bind at 1, ret at 1. cbn [negb].
  unfold try_catch, bind, writeFileSync, showInformationMessage,
    showErrorMessage, notify.
  destruct (writeFile_throws env (path_join env folder ".cursorrules"));
    (eexists; split; [reflexivity|]; cbn; split; [reflexivity|]; split;
     [intros n Hn; apply in_app_or in Hn;
      destruct Hn as [Hn|[<-|[]]]; auto|]).
  - discriminate.
  - intros _. split; reflexivity.
Qed.

Lemma setRule_new_file_witness :
  exists w',
    _setRule (Sample.host Sample.morning) Sample.rule_a Sample.fresh
    = (Ok tt, w') /\
    files w' !! "/work/.cursorrules" = Some "Always use strict mode." /\
    notifications w'
    = [InformationMessage "Successfully applied rule: Rule A"].
Proof.
  destruct (setRule_new_file (Sample.host Sample.morning) Sample.rule_a
              Sample.fresh "/work" [])
    as (w' & Hrun & _ & _ & Hdone).
  - reflexivity.
  - vm_compute. reflexivity.
  - destruct (Hdone eq_refl) as [Hfiles Hnotes].
    exists w'. split; [exact Hrun|]. rewrite Hfiles, Hnotes.
    split; [vm_compute; reflexivity|reflexivity].
Defined.

(** C9.  Applying a rule when the [.cursorrules] file already exists always
    asks first, with the items Yes and No.  Unless the answer is Yes (the
    user picks No or dismisses the prompt) the applier returns normally,
    attempts no write, leaves every file as it was and raises no further
    notification; only the answer Yes leads to the write. *)
Theorem setRule_existing_file (env : Env) (rule : Rule) (w : World)
    (folder : string) (others : list string) (old : string) :
  workspaceFolders w = folder :: others ->
  files w !! path_join env folder ".cursorrules" = Some old ->
  exists w' later,
    _setRule env rule w = (Ok tt, w') /\
    notifications w'
    = (notifications w ++ overwrite_prompt :: later)%list /\
    (warning_choice env <> Some "Yes" ->
     later = [] /\ writes w' = writes w /\ files w' = files w) /\
    (warning_choice env = Some "Yes" ->
     writes w'
     = (writes w ++ [(path_join env folder ".cursorrules", content rule)])%list).
Proof.
  intros Hfolder Hfile. unfold _setRule. rewrite Hfolder.
  unfold bind at 1, existsSync. rewrite Hfile.
  rewrite bool_decide_eq_true_2 by eauto.
  unfold bind at 1, showWarningMessage, bind at 1, notify, ret at 1.
  unfold bind at 1, ret at 1.
  case_bool_decide as Hchoice; cbn [negb].
  - unfold try_catch, bind, writeFileSync, showInformationMessage,
      showErrorMessage, notify.
    destruct (writeFile_throws env (path_join env folder ".cursorrules"));
      cbn; eexists _, [_]; (split; [reflexivity|]); cbn;
      rewrite <- app_assoc; (split; [reflexivity|]);
      (split; [intros Hno; contradiction|intros _; reflexivity]).
  - eexists _, []. split; [reflexivity|]. cbn. split; [reflexivity|].
    split; [intros _; repeat split|intros Hyes; contradiction].
Qed.

Lemma setRule_existing_file_witness :
  exists w',
    _setRule (Sample.with_choice (Some "No") (Sample.host Sample.morning))
             Sample.rule_a Sample.occupied
    = (Ok tt, w') /\
    notifications w' = [overwrite_prompt] /\
    writes w' = [] /\
    files w' !! "/work/.cursorrules" = Some "old rules".
Proof.
  destruct (setRule_existing_file
              (Sample.with_choice (Some "No") (Sample.host Sample.morning))
              Sample.rule_a Sample.occupied "/work" [] "old rules")
    as (w' & later & Hrun & Hnotes & Hdecline & _).
  - reflexivity.
  - vm_compute. reflexivity.
  - destruct Hdecline as (Hlater & Hwrites & Hfiles); [discriminate|].
    exists w'. split; [exact Hrun|]. rewrite Hnotes, Hlater, Hwrites, Hfiles.
    split; [reflexivity|]. split; [reflexivity|vm_compute; reflexivity].
Defined.

(** ** Further properties of the provider *)

Section MoreSteps.

Variable env : Env.

(** The run of [_loadRules] when the local rules are empty. *)
Lemma _loadRules_no_local (w : World) :
  local_rules env w = [] ->
  _loadRules env w
  = (Ok (mkLoad [] true true),
     with_notifications
       (notifications w
          ++ [ErrorMessage
                "No local rules found. Please reinstall the extension."]) w).
Proof.
  intros Hnil. rewrite _loadRules_unfold, Hnil. reflexivity.
Qed.

(** When [local_rules] is empty. *)
Lemma local_rules_nil (w : World) :
  files w !! RULES_JSON_PATH env = None \/
  readFile_throws env (RULES_JSON_PATH env) = true \/
  (exists text,
     files w !! RULES_JSON_PATH env = Some text /\
     (JSON_parse env text = None \/ JSON_parse env text = Some [])) ->
  local_rules env w = [].
Proof.
  unfold local_rules, _loadLocalRules, try_catch, bind, existsSync,
    readFileSync, parse, ret, throw.
  intros [H|[H|(text & H & [Hp|Hp])]];
    repeat (case_match; simplify_eq/=); reflexivity.
Qed.

(** When [local_rules] is the parsed bundled file. *)
Lemma local_rules_parsed (w : World) (text : string) (rs : list Rule) :
  files w !! RULES_JSON_PATH env = Some text ->
  readFile_throws env (RULES_JSON_PATH env) = false ->
  JSON_parse env text = Some rs ->
  local_rules env w = rs.
Proof.
  unfold local_rules, _loadLocalRules, try_catch, bind, existsSync,
    readFileSync, parse, ret, throw.
  intros H1 H2 H3. repeat (case_match; simplify_eq/=); try reflexivity.
  rewrite H1, bool_decide_eq_true_2 in H by eauto. discriminate.
Qed.

(** The run of [_loadRules] up to line 152 when no sync is due: the cache
    decides between the cached set, the default fallback and the [catch]
    arm. *)
Lemma _loadRules_not_due (w : World) :
  local_rules env w <> [] ->
  probe_ok env = true ->
  needsSync_value (stored_lastSync w) (Date_now env (ticks w)) = false ->
  _loadRules env w
  = match config w !! RULES_CACHE_KEY with
    | Some v =>
        if truthy v
        then match JSON_parse env (ToString v) with
             | Some cached => (Ok (mkLoad cached false false), after_check w)
             | None =>
                 (Ok (mkLoad (local_rules env w) true true),
                  with_notifications
                    (notifications w
                       ++ [ErrorMessage
                             "Failed to load rules. Using local rules as fallback."])
                    (after_check w))
             end
        else (Ok (mkLoad (local_rules env w) false false), after_check w)
    | None => (Ok (mkLoad (local_rules env w) false false), after_check w)
    end.
Proof.
  intros Hlocal Hprobe Hdue.
  rewrite _loadRules_unfold. unfold try_catch at 1, _loadRules_try.
  apply length_eqb_0 in Hlocal. rewrite Hlocal.
  unfold bind at 1. rewrite probe_eq, Hprobe. cbn [negb].
  unfold bind at 1. rewrite _getLastSync_stored.
  change (stored_lastSync (with_requests (requests w ++ [HEAD]) w))
    with (stored_lastSync w).
  unfold bind at 1. rewrite compute_needsSync_eq.
  cbn [ticks with_requests]. rewrite Hdue. cbn [negb].
  unfold bind at 1, config_get.
  change (if not_lastSync (stored_lastSync w)
          then with_requests (requests w ++ [HEAD]) w
          else with_ticks (S (ticks w)) (with_requests (requests w ++ [HEAD]) w))
    with (after_check w).
  replace (config (after_check w)) with (config w)
    by (symmetry; apply after_check_fields).
  destruct (config w !! RULES_CACHE_KEY) as [v|]; [|reflexivity].
  destruct (truthy v); [|reflexivity].
  unfold bind, parse. destruct (JSON_parse env (ToString v)); [reflexivity|].
  cbn. replace (notifications (after_check w)) with (notifications w);
    [reflexivity|].
  unfold after_check. destruct (not_lastSync (stored_lastSync w)); reflexivity.
Qed.

(** The run of [_loadRules] when the probe fails. *)
Lemma _loadRules_probe_fails (w : World) :
  local_rules env w <> [] ->
  probe_ok env = false ->
  _loadRules env w
  = (Ok (mkLoad (local_rules env w) true true),
     with_requests (requests w ++ [HEAD]) w).
Proof.
  intros Hlocal Hprobe. rewrite _loadRules_unfold.
  unfold try_catch, _loadRules_try.
  apply length_eqb_0 in Hlocal. rewrite Hlocal.
  unfold bind at 1. rewrite probe_eq, Hprobe. reflexivity.
Qed.

End MoreSteps.

(** X1.  When the bundled rules file is missing, unreadable, unparsable or
    holds an empty array, [_loadRules] returns the empty rule set with both
    flags true and raises the "No local rules found" error; it probes
    nothing, fetches nothing and changes nothing else. *)
Theorem loadRules_without_local_rules (env : Env) (w : World) :
  files w !! RULES_JSON_PATH env = None \/
  readFile_throws env (RULES_JSON_PATH env) = true \/
  (exists text,
     files w !! RULES_JSON_PATH env = Some text /\
     (JSON_parse env text = None \/ JSON_parse env text = Some [])) ->
  _loadRules env w
  = (Ok (mkLoad [] true true),
     with_notifications
       (notifications w
          ++ [ErrorMessage
                "No local rules found. Please reinstall the extension."]) w).
Proof.
  intros Hcause. apply _loadRules_no_local, local_rules_nil, Hcause.
Qed.

Lemma loadRules_without_local_rules_witness :
  _loadRules (Sample.host Sample.morning)
             (with_files {[ Sample.bundled := "not json" ]} Sample.fresh)
  = (Ok (mkLoad [] true true),
     with_notifications
       (notifications (with_files {[ Sample.bundled := "not json" ]}
                                  Sample.fresh)
          ++ [ErrorMessage
                "No local rules found. Please reinstall the extension."])
       (with_files {[ Sample.bundled := "not json" ]} Sample.fresh)).
Proof.
  apply (loadRules_without_local_rules
           (Sample.host Sample.morning)
           (with_files {[ Sample.bundled := "not json" ]} Sample.fresh)).
  right. right. exists "not json". split; [vm_compute; reflexivity|].
  left. reflexivity.
Defined.

(** X2.  [_loadLocalRules] never throws and changes nothing: it yields the
    parsed bundled file when the file exists, can be read and parses, and
    the empty list when the file is missing, the read fails or the text
    does not parse. *)
Theorem loadLocalRules_swallows_failures (env : Env) (w : World) :
  exists l,
    _loadLocalRules env w = (Ok l, w) /\
    (forall text rs,
       files w !! RULES_JSON_PATH env = Some text ->
       readFile_throws env (RULES_JSON_PATH env) = false ->
       JSON_parse env text = Some rs -> l = rs) /\
    (files w !! RULES_JSON_PATH env = None -> l = []) /\
    (readFile_throws env (RULES_JSON_PATH env) = true -> l = []) /\
    (forall text,
       files w !! RULES_JSON_PATH env = Some text ->
       JSON_parse env text = None -> l = []).
Proof.
  exists (local_rules env w). split; [apply _loadLocalRules_eq|].
  split; [intros text rs; apply local_rules_parsed|].
  split; [intros H; apply local_rules_nil; auto|].
  split; [intros H; apply local_rules_nil; auto|].
  intros text H1 H2. apply local_rules_nil. right. right. eauto.
Qed.

(** X3.  The default fallback.  With local rules, a successful probe and no
    sync due, a cache key that is unset or holds a falsy value (the empty
    string, [null], [false], [0]) makes [_loadRules] return the local rules
    with both flags false; only the probe is issued and nothing is raised
    or changed. *)
Theorem loadRules_default_fallback (env : Env) (w : World) :
  local_rules env w <> [] ->
  probe_ok env = true ->
  needsSync_value (stored_lastSync w) (Date_now env (ticks w)) = false ->
  (config w !! RULES_CACHE_KEY = None \/
   exists v, config w !! RULES_CACHE_KEY = Some v /\ truthy v = false) ->
  exists w',
    _loadRules env w = (Ok (mkLoad (local_rules env w) false false), w') /\
    requests w' = (requests w ++ [HEAD])%list /\
    notifications w' = notifications w /\
    config w' = config w /\ files w' = files w /\ writes w' = writes w.
Proof.
  intros Hlocal Hprobe Hdue Hcache.
  rewrite _loadRules_not_due by assumption.
  destruct (after_check_fields w) as (Hc & Hf & Hw & Hr & _).
  assert (Hn : notifications (after_check w) = notifications w).
  { unfold after_check. destruct (not_lastSync (stored_lastSync w)); reflexivity. }
  destruct Hcache as [->|(v & -> & ->)]; eexists; (split; [reflexivity|]); auto.
Qed.

Lemma loadRules_default_fallback_witness :
  exists w',
    _loadRules (Sample.host Sample.morning)
               (Sample.synced (Sample.morning - 1000) "")
    = (Ok (mkLoad [Sample.rule_a] false false), w') /\
    requests w'
    = (requests (Sample.synced (Sample.morning - 1000) "") ++ [HEAD])%list /\
    notifications w' = notifications (Sample.synced (Sample.morning - 1000) "") /\
    config w' = config (Sample.synced (Sample.morning - 1000) "") /\
    files w' = files (Sample.synced (Sample.morning - 1000) "") /\
    writes w' = writes (Sample.synced (Sample.morning - 1000) "").
Proof.
  apply (loadRules_default_fallback
           (Sample.host Sample.morning)
           (Sample.synced (Sample.morning - 1000) "")).
  - vm_compute. discriminate.
  - reflexivity.
  - vm_compute. reflexivity.
  - right. exists (CfgStr ""). split; [vm_compute; reflexivity|reflexivity].
Defined.

(** X4.  A corrupted cache.  With local rules, a successful probe and no
    sync due, a truthy cache value that does not parse lands in the [catch]
    arm: [_loadRules] raises the "Failed to load rules" error and returns
    the local rules with both flags true, without fetching and without
    repairing the cache. *)
Theorem loadRules_corrupt_cache (env : Env) (w : World) (v : CfgValue) :
  local_rules env w <> [] ->
  probe_ok env = true ->
  needsSync_value (stored_lastSync w) (Date_now env (ticks w)) = false ->
  config w !! RULES_CACHE_KEY = Some v ->
  truthy v = true ->
  JSON_parse env (ToString v) = None ->
  exists w',
    _loadRules env w = (Ok (mkLoad (local_rules env w) true true), w') /\
    requests w' = (requests w ++ [HEAD])%list /\
    notifications w'
    = (notifications w
         ++ [ErrorMessage
               "Failed to load rules. Using local rules as fallback."])%list /\
    config w' = config w /\ files w' = files w /\ writes w' = writes w.
Proof.
  intros Hlocal Hprobe Hdue Hcache Htruthy Hparse.
  rewrite _loadRules_not_due by assumption.
  rewrite Hcache, Htruthy, Hparse.
  destruct (after_check_fields w) as (Hc & Hf & Hw & Hr & _).
  eexists. split; [reflexivity|]. cbn. auto.
Qed.

Lemma loadRules_corrupt_cache_witness :
  exists w',
    _loadRules (Sample.host Sample.morning)
               (Sample.synced (Sample.morning - 1000) "{oops")
    = (Ok (mkLoad [Sample.rule_a] true true), w') /\
    requests w'
    = (requests (Sample.synced (Sample.morning - 1000) "{oops") ++ [HEAD])%list /\
    notifications w'
    = (notifications (Sample.synced (Sample.morning - 1000) "{oops")
         ++ [ErrorMessage
               "Failed to load rules. Using local rules as fallback."])%list /\
    config w' = config (Sample.synced (Sample.morning - 1000) "{oops") /\
    files w' = files (Sample.synced (Sample.morning - 1000) "{oops") /\
    writes w' = writes (Sample.synced (Sample.morning - 1000) "{oops").
Proof.
  apply (loadRules_corrupt_cache
           (Sample.host Sample.morning)
           (Sample.synced (Sample.morning - 1000) "{oops")
           (CfgStr "{oops")).
  - vm_compute. discriminate.
  - reflexivity.
  - vm_compute. reflexivity.
  - vm_compute. reflexivity.
  - reflexivity.
  - reflexivity.
Defined.

(** X5.  [_loadRules] touches persisted state only through a sync: whenever
    the configuration, a file or the write log differs after a run, the
    local rules were not empty, the probe succeeded, line 150 found a sync
    due and the [GET] delivered a parsable rule list. *)
Theorem loadRules_changes_only_by_sync (env : Env) (w : World) :
  exists r w',
    _loadRules env w = (Ok r, w') /\
    ((config w' = config w /\ files w' = files w /\ writes w' = writes w) \/
     (local_rules env w <> [] /\ probe_ok env = true /\
      needsSync_value (stored_lastSync w) (Date_now env (ticks w)) = true /\
      exists rs, fetched env = Some rs)).
Proof.
  destruct (after_check_fields w) as (Hc & Hf & Hw & _ & _).
  destruct (local_rules env w) as [|r0 l] eqn:Hlocal.
  { rewrite _loadRules_no_local by assumption.
    eexists _, _. split; [reflexivity|]. left. auto. }
  assert (Hne : local_rules env w <> []) by (rewrite Hlocal; discriminate).
  rewrite <- Hlocal.
  destruct (probe_ok env) eqn:Hprobe.
  2:{ rewrite _loadRules_probe_fails by assumption.
      eexists _, _. split; [reflexivity|]. left. auto. }
  destruct (needsSync_value (stored_lastSync w) (Date_now env (ticks w)))
    eqn:Hdue.
  - destruct (fetched env) as [rs|] eqn:Hrs.
    + destruct (_loadRules_total env w) as (r & w' & Hrun & _).
      exists r, w'. split; [exact Hrun|]. right. eauto.
    + rewrite _loadRules_sync_due by assumption.
      destruct (_syncRules_fetch_fails env (after_check w) Hrs) as [e ->].
      eexists _, _. split; [reflexivity|]. left. auto.
  - rewrite _loadRules_not_due by assumption.
    destruct (config w !! RULES_CACHE_KEY) as [v|];
      [destruct (truthy v); [destruct (JSON_parse env (ToString v))|]|];
      eexists _, _; (split; [reflexivity|]); left; auto.
Qed.

Section SyncSteps.

Variable env : Env.

(** Everything a successful [_syncRules] leaves behind. *)
Lemma _syncRules_success (w : World) (rs : list Rule) :
  fetched env = Some rs ->
  writeFile_throws env (RULES_JSON_PATH env) = false ->
  update_rejects env RULES_CACHE_KEY = false ->
  update_rejects env LAST_SYNC_KEY = false ->
  exists w',
    _syncRules env w = (Ok rs, w') /\
    config w'
    = <[LAST_SYNC_KEY := CfgNum (Date_now env (ticks w))]>
        (<[RULES_CACHE_KEY := CfgStr (JSON_stringify env rs)]> (config w)) /\
    files w'
    = <[RULES_JSON_PATH env := JSON_stringify_pretty env rs]> (files w) /\
    requests w' = (requests w ++ [GET])%list /\
    writes w'
    = (writes w
         ++ [(RULES_JSON_PATH env, JSON_stringify_pretty env rs)])%list /\
    notifications w'
    = (notifications w
         ++ [InformationMessage "Rules synced successfully!"])%list /\
    posted w'
    = (posted w
         ++ if panel w then [syncComplete (Date_now env (S (ticks w)))]
            else [])%list /\
    panel w' = panel w /\
    workspaceFolders w' = workspaceFolders w.
Proof.
  unfold fetched, _syncRules, _setLastSync, try_catch, bind, fetch, parse,
    throw, writeFileSync, config_update, now, has_panel, postMessage,
    showInformationMessage, notify, ret.
  destruct (fetch_result env GET) as [|resp]; [discriminate|].
  destruct (ok resp); cbn [negb]; [|discriminate].
  intros -> -> -> ->. cbn.
  destruct (panel w) eqn:Hpanel; eexists; (split; [reflexivity|]); cbn;
    rewrite ?app_nil_r; repeat split; (reflexivity || congruence).
Qed.

End SyncSteps.

(** X6.  What a sync stores is what the next load returns.  After a
    successful [_syncRules], a later [_loadRules] whose probe succeeds,
    whose clock is no more than 24 hours past the stored (non-zero) stamp
    and whose codec reads back both documents returns exactly the synced
    rules with both flags false, issuing the probe and no fetch. *)
Theorem sync_then_load_returns_synced (env1 env2 : Env) (w : World)
    (rs : list Rule) :
  fetched env1 = Some rs ->
  writeFile_throws env1 (RULES_JSON_PATH env1) = false ->
  update_rejects env1 RULES_CACHE_KEY = false ->
  update_rejects env1 LAST_SYNC_KEY = false ->
  rs <> [] ->
  RULES_JSON_PATH env2 = RULES_JSON_PATH env1 ->
  readFile_throws env2 (RULES_JSON_PATH env2) = false ->
  JSON_parse env2 (JSON_stringify_pretty env1 rs) = Some rs ->
  JSON_stringify env1 rs <> "" ->
  JSON_parse env2 (JSON_stringify env1 rs) = Some rs ->
  probe_ok env2 = true ->
  Date_now env1 (ticks w) <> 0 ->
  Date_now env2 (ticks (snd (_syncRules env1 w))) - Date_now env1 (ticks w)
    <= DAY_MS ->
  exists w2,
    _loadRules env2 (snd (_syncRules env1 w))
    = (Ok (mkLoad rs false false), w2) /\
    requests w2 = (requests w ++ [GET; HEAD])%list.
Proof.
  intros Hrs Hwrite Hcache Hstamp Hne Hpath Hread Hpretty Hs Hcompact
    Hprobe Hnz Hfresh.
  destruct (_syncRules_success env1 w rs Hrs Hwrite Hcache Hstamp)
    as (w1 & Hrun & Hcfg & Hfiles & Hreq & _).
  rewrite Hrun in *. cbn [snd] in *.
  assert (Hlocal : local_rules env2 w1 = rs).
  { apply (local_rules_parsed env2 w1 (JSON_stringify_pretty env1 rs));
      [|assumption|assumption].
    rewrite Hfiles, Hpath. apply lookup_insert_eq. }
  assert (Hstored : stored_lastSync w1 = Some (Date_now env1 (ticks w))).
  { unfold stored_lastSync. rewrite _getLastSync_eq, Hcfg. cbn [fst].
    rewrite lookup_insert_eq. reflexivity. }
  assert (Hdue : needsSync_value (stored_lastSync w1)
                   (Date_now env2 (ticks w1)) = false).
  { rewrite Hstored. unfold needsSync_value, not_lastSync.
    cbn [default from_option id].
    destruct (Z.eqb_spec (Date_now env1 (ticks w)) 0); [contradiction|].
    cbn [orb]. rewrite Z.gtb_ltb. apply Z.ltb_ge. exact Hfresh. }
  rewrite _loadRules_not_due; [|rewrite Hlocal; exact Hne|exact Hprobe|exact Hdue].
  rewrite Hcfg, lookup_insert_ne by discriminate.
  rewrite lookup_insert_eq. cbn [truthy ToString].
  apply String.eqb_neq in Hs. rewrite Hs. cbn [negb]. rewrite Hcompact.
  eexists. split; [reflexivity|].
  destruct (after_check_fields w1) as (_ & _ & _ & -> & _).
  rewrite Hreq, <- app_assoc. reflexivity.
Qed.

Lemma sync_then_load_returns_synced_witness :
  exists w2,
    _loadRules (Sample.host Sample.morning)
               (snd (_syncRules (Sample.host Sample.morning) Sample.fresh))
    = (Ok (mkLoad [Sample.rule_a; Sample.rule_b] false false), w2) /\
    requests w2 = (requests Sample.fresh ++ [GET; HEAD])%list.
Proof.
  apply (sync_then_load_returns_synced
           (Sample.host Sample.morning) (Sample.host Sample.morning)
           Sample.fresh [Sample.rule_a; Sample.rule_b]).
  - reflexivity.
  - reflexivity.
  - reflexivity.
  - reflexivity.
  - discriminate.
  - reflexivity.
  - reflexivity.
  - reflexivity.
  - vm_compute. discriminate.
  - reflexivity.
  - reflexivity.
  - vm_compute. discriminate.
  - vm_compute. discriminate.
Defined.

(** X7.  A successful sync replaces the offline fallback.  After
    [_syncRules] has returned, [_loadLocalRules] yields the synced rules as
    soon as the codec reads the pretty-printed document back, and a load
    whose probe fails returns them with both flags true. *)
Theorem sync_then_offline_returns_synced (env1 env2 : Env) (w : World)
    (rs : list Rule) :
  fetched env1 = Some rs ->
  writeFile_throws env1 (RULES_JSON_PATH env1) = false ->
  update_rejects env1 RULES_CACHE_KEY = false ->
  update_rejects env1 LAST_SYNC_KEY = false ->
  RULES_JSON_PATH env2 = RULES_JSON_PATH env1 ->
  readFile_throws env2 (RULES_JSON_PATH env2) = false ->
  JSON_parse env2 (JSON_stringify_pretty env1 rs) = Some rs ->
  probe_ok env2 = false ->
  local_rules env2 (snd (_syncRules env1 w)) = rs /\
  exists w2,
    _loadRules env2 (snd (_syncRules env1 w))
    = (Ok (mkLoad rs true true), w2).
Proof.
  intros Hrs Hwrite Hcache Hstamp Hpath Hread Hpretty Hprobe.
  destruct (_syncRules_success env1 w rs Hrs Hwrite Hcache Hstamp)
    as (w1 & Hrun & _ & Hfiles & _).
  rewrite Hrun. cbn [snd].
  assert (Hlocal : local_rules env2 w1 = rs).
  { apply (local_rules_parsed env2 w1 (JSON_stringify_pretty env1 rs));
      [|assumption|assumption].
    rewrite Hfiles, Hpath. apply lookup_insert_eq. }
  split; [exact Hlocal|].
  destruct rs as [|r rs'].
  - rewrite _loadRules_no_local by exact Hlocal. eexists. reflexivity.
  - rewrite _loadRules_probe_fails;
      [|rewrite Hlocal; discriminate|exact Hprobe].
    rewrite Hlocal. eexists. reflexivity.
Qed.

Lemma sync_then_offline_returns_synced_witness :
  local_rules (Sample.unreachable (Sample.host Sample.morning))
              (snd (_syncRules (Sample.host Sample.morning) Sample.fresh))
  = [Sample.rule_a; Sample.rule_b] /\
  exists w2,
    _loadRules (Sample.unreachable (Sample.host Sample.morning))
               (snd (_syncRules (Sample.host Sample.morning) Sample.fresh))
    = (Ok (mkLoad [Sample.rule_a; Sample.rule_b] true true), w2).
Proof.
  apply (sync_then_offline_returns_synced
           (Sample.host Sample.morning)
           (Sample.unreachable (Sample.host Sample.morning))
           Sample.fresh [Sample.rule_a; Sample.rule_b]);
    reflexivity.
Defined.

(** X8.  Syncing an empty remote list removes the local fallback.  When the
    endpoint serves an empty array and the sync goes through, the bundled
    file is rewritten with it, so every later load - whatever the network
    does - stops at "No local rules found", returns the empty set with both
    flags true and issues no request at all. *)
Theorem sync_of_empty_list_disables_loading (env1 env2 : Env) (w : World) :
  fetched env1 = Some [] ->
  writeFile_throws env1 (RULES_JSON_PATH env1) = false ->
  update_rejects env1 RULES_CACHE_KEY = false ->
  update_rejects env1 LAST_SYNC_KEY = false ->
  RULES_JSON_PATH env2 = RULES_JSON_PATH env1 ->
  JSON_parse env2 (JSON_stringify_pretty env1 []) = Some [] ->
  exists w2,
    _loadRules env2 (snd (_syncRules env1 w))
    = (Ok (mkLoad [] true true), w2) /\
    requests w2 = requests (snd (_syncRules env1 w)) /\
    notifications w2
    = (notifications (snd (_syncRules env1 w))
         ++ [ErrorMessage
               "No local rules found. Please reinstall the extension."])%list.
Proof.
  intros Hrs Hwrite Hcache Hstamp Hpath Hpretty.
  destruct (_syncRules_success env1 w [] Hrs Hwrite Hcache Hstamp)
    as (w1 & Hrun & _ & Hfiles & _).
  rewrite Hrun. cbn [snd].
  rewrite _loadRules_no_local.
  - eexists. split; [reflexivity|]. split; reflexivity.
  - apply local_rules_nil. right. right.
    exists (JSON_stringify_pretty env1 []). split; [|right; exact Hpretty].
    rewrite Hfiles, Hpath. apply lookup_insert_eq.
Qed.

Lemma sync_of_empty_list_disables_loading_witness :
  exists w2,
    _loadRules (Sample2.host Sample.morning)
      (snd (_syncRules (Sample2.serves_nothing (Sample2.host Sample.morning))
                       Sample.fresh))
    = (Ok (mkLoad [] true true), w2) /\
    requests w2
    = requests
        (snd (_syncRules
                (Sample2.serves_nothing (Sample2.host Sample.morning))
                Sample.fresh)) /\
    notifications w2
    = (notifications
         (snd (_syncRules
                 (Sample2.serves_nothing (Sample2.host Sample.morning))
                 Sample.fresh))
         ++ [ErrorMessage
               "No local rules found. Please reinstall the extension."])%list.
Proof.
  apply (sync_of_empty_list_disables_loading
           (Sample2.serves_nothing (Sample2.host Sample.morning))
           (Sample2.host Sample.morning) Sample.fresh);
    reflexivity.
Defined.

(** X9.  When the rule list has been fetched and parsed but the bundled
    file cannot be written, [_syncRules] throws "Failed to save rules
    locally" in place of the file-system error; the write was attempted,
    and neither the configuration nor the notifications nor the webview
    are touched. *)
Theorem syncRules_save_failure (env : Env) (w : World) (rs : list Rule) :
  fetched env = Some rs ->
  writeFile_throws env (RULES_JSON_PATH env) = true ->
  _syncRules env w
  = (Throw (Error "Failed to save rules locally"),
     with_writes
       (writes w ++ [(RULES_JSON_PATH env, JSON_stringify_pretty env rs)])
       (with_requests (requests w ++ [GET]) w)).
Proof.
  unfold fetched, _syncRules, try_catch, bind, fetch, parse, throw,
    writeFileSync, ret.
  destruct (fetch_result env GET) as [|r]; [discriminate|].
  destruct (ok r); cbn [negb]; [|discriminate].
  intros -> ->. reflexivity.
Qed.

Lemma syncRules_save_failure_witness :
  _syncRules (Sample.with_write_faults (fun _ => true)
                (Sample.host Sample.morning)) Sample.fresh
  = (Throw (Error "Failed to save rules locally"),
     with_writes
       (writes Sample.fresh ++ [(Sample.bundled, "[ a, b ]")])
       (with_requests (requests Sample.fresh ++ [GET]) Sample.fresh)).
Proof.
  apply (syncRules_save_failure
           (Sample.with_write_faults (fun _ => true)
              (Sample.host Sample.morning))
           Sample.fresh [Sample.rule_a; Sample.rule_b]);
    reflexivity.
Defined.

(** X10.  What a successful [_syncRules] reports.  It stores the clock
    reading taken at line 230, raises "Rules synced successfully!", and -
    only when the panel is open - posts one [syncComplete] whose stamp is
    the next clock reading (line 235), not the stored one. *)
Theorem syncRules_success_reports (env : Env) (w : World) (rs : list Rule) :
  fetched env = Some rs ->
  writeFile_throws env (RULES_JSON_PATH env) = false ->
  update_rejects env RULES_CACHE_KEY = false ->
  update_rejects env LAST_SYNC_KEY = false ->
  exists w',
    _syncRules env w = (Ok rs, w') /\
    stored_lastSync w' = Some (Date_now env (ticks w)) /\
    notifications w'
    = (notifications w
         ++ [InformationMessage "Rules synced successfully!"])%list /\
    posted w'
    = (posted w
         ++ if panel w then [syncComplete (Date_now env (S (ticks w)))]
            else [])%list.
Proof.
  intros Hrs Hwrite Hcache Hstamp.
  destruct (_syncRules_success env w rs Hrs Hwrite Hcache Hstamp)
    as (w' & Hrun & Hcfg & _ & _ & _ & Hnotes & Hposted & _).
  exists w'. split; [exact Hrun|]. split; [|split; assumption].
  unfold stored_lastSync. rewrite _getLastSync_eq, Hcfg. cbn [fst].
  rewrite lookup_insert_eq. reflexivity.
Qed.

Lemma syncRules_success_reports_witness :
  exists w',
    _syncRules (Sample.host Sample.morning) Sample.fresh
    = (Ok [Sample.rule_a; Sample.rule_b], w') /\
    stored_lastSync w' = Some Sample.morning /\
    notifications w' = [InformationMessage "Rules synced successfully!"] /\
    posted w' = [syncComplete (Sample.morning + 1)].
Proof.
  apply (syncRules_success_reports
           (Sample.host Sample.morning) Sample.fresh
           [Sample.rule_a; Sample.rule_b]);
    reflexivity.
Defined.

Section PanelSteps.

Variable env : Env.

(** [_syncRules] never opens or closes the panel. *)
Lemma _syncRules_panel (w : World) :
  panel (snd (_syncRules env w)) = panel w.
Proof.
  unfold _syncRules, _setLastSync, try_catch, bind, fetch, parse, throw,
    writeFileSync, config_update, now, has_panel, postMessage,
    showInformationMessage, notify, ret.
  repeat (case_match; simplify_eq/=); reflexivity.
Qed.

(** Neither does [_loadRules]. *)
Lemma _loadRules_panel (w : World) :
  panel (snd (_loadRules env w)) = panel w.
Proof.
  assert (Hac : panel (after_check w) = panel w).
  { unfold after_check. destruct (not_lastSync (stored_lastSync w)); reflexivity. }
  destruct (local_rules env w) as [|r0 l] eqn:Hlocal.
  { rewrite _loadRules_no_local by assumption. reflexivity. }
  assert (Hne : local_rules env w <> []) by (rewrite Hlocal; discriminate).
  destruct (probe_ok env) eqn:Hprobe.
  2:{ rewrite _loadRules_probe_fails by assumption. reflexivity. }
  destruct (needsSync_value (stored_lastSync w) (Date_now env (ticks w)))
    eqn:Hdue.
  - rewrite _loadRules_sync_due by assumption.
    pose proof (_syncRules_panel (after_check w)) as Hp.
    destruct (_syncRules env (after_check w)) as [[rs|e] w']; cbn in *;
      congruence.
  - rewrite _loadRules_not_due by assumption.
    repeat case_match; cbn; exact Hac.
Qed.

(** What [_sendRules] does when the panel is open. *)
Lemma _sendRules_open (w : World) :
  panel w = true ->
  exists r w1,
    _loadRules env w = (Ok r, w1) /\
    needsSync r = isOffline r /\
    _sendRules env w
    = (Ok tt,
       with_posted
         (posted w1
            ++ [setRules (rules r) (stored_lastSync w1)
                         (needsSync r) (isOffline r)]) w1).
Proof.
  intros Hpanel.
  destruct (_loadRules_total env w) as (r & w1 & Hrun & Hflags).
  exists r, w1. split; [exact Hrun|]. split; [exact Hflags|].
  unfold _sendRules, bind at 1, has_panel. rewrite Hpanel. cbn [negb].
  unfold bind at 1. rewrite Hrun.
  unfold bind. rewrite _getLastSync_stored. reflexivity.
Qed.

Lemma _sendRules_closed (w : World) :
  panel w = false -> _sendRules env w = (Ok tt, w).
Proof.
  intros Hpanel. unfold _sendRules, bind, has_panel. rewrite Hpanel.
  reflexivity.
Qed.

End PanelSteps.

(** X11.  [_sendRules] does nothing at all without a panel.  With a panel it
    runs one load and posts exactly one [setRules] message after it,
    carrying the load's rules and flags together with the stamp read after
    the load - so a sync made by that load is already reflected in the
    message. *)
Theorem sendRules_posts_load_result (env : Env) (w : World) :
  (panel w = false -> _sendRules env w = (Ok tt, w)) /\
  (panel w = true ->
   exists r w1,
     _loadRules env w = (Ok r, w1) /\
     _sendRules env w
     = (Ok tt,
        with_posted
          (posted w1
             ++ [setRules (rules r) (stored_lastSync w1)
                          (needsSync r) (isOffline r)]) w1)).
Proof.
  split; [apply _sendRules_closed|].
  intros Hpanel.
  destruct (_sendRules_open env w Hpanel) as (r & w1 & Hrun & _ & Hsend).
  eauto.
Qed.

(** X12.  The open command is idempotent.  [show] always completes; after
    it the panel is set, and running it again - under any network and
    clock - changes nothing: no second load, no second message. *)
Theorem show_twice_is_show_once (env1 env2 : Env) (w : World) :
  exists w1,
    show env1 w = (Ok tt, w1) /\
    panel w1 = true /\
    show env2 w1 = (Ok tt, w1).
Proof.
  assert (Hagain : forall e w1, panel w1 = true -> show e w1 = (Ok tt, w1)).
  { intros e w1 H. unfold show, bind, has_panel. rewrite H. reflexivity. }
  destruct (panel w) eqn:Hpanel.
  - exists w. split; [apply Hagain, Hpanel|]. split; [exact Hpanel|].
    apply Hagain, Hpanel.
  - unfold show at 1, bind at 1, has_panel. rewrite Hpanel.
    unfold bind at 1.
    destruct (_sendRules_open env1 (with_panel true w) eq_refl)
      as (r & w1 & Hrun & _ & ->).
    eexists. split; [reflexivity|].
    assert (Hp : panel w1 = true).
    { pose proof (_loadRules_panel env1 (with_panel true w)) as H.
      rewrite Hrun in H. exact H. }
    split; [exact Hp|]. apply Hagain. exact Hp.
Qed.

(** X13.  Without an open workspace folder [_setRule] only raises "No
    workspace folder available": no prompt, no write, nothing else
    changes. *)
Theorem setRule_without_workspace (env : Env) (rule : Rule) (w : World) :
  workspaceFolders w = [] ->
  _setRule env rule w
  = (Ok tt,
     with_notifications
       (notifications w ++ [ErrorMessage "No workspace folder available"]) w).
Proof. intros H. unfold _setRule. rewrite H. reflexivity. Qed.

Lemma setRule_without_workspace_witness :
  _setRule (Sample.host Sample.morning) Sample.rule_a Sample2.no_workspace
  = (Ok tt,
     with_notifications
       (notifications Sample2.no_workspace
          ++ [ErrorMessage "No workspace folder available"])
       Sample2.no_workspace).
Proof.
  apply (setRule_without_workspace
           (Sample.host Sample.morning) Sample.rule_a Sample2.no_workspace).
  reflexivity.
Defined.

(** X14.  A confirmed overwrite.  When the [.cursorrules] file exists, the
    user answers Yes and the write goes through, the file's contents are
    replaced by exactly the rule's [content]; the prompt is followed by the
    success message and no other file changes. *)
Theorem setRule_overwrite_confirmed (env : Env) (rule : Rule) (w : World)
    (folder : string) (others : list string) (old : string) :
  workspaceFolders w = folder :: others ->
  files w !! path_join env folder ".cursorrules" = Some old ->
  warning_choice env = Some "Yes" ->
  writeFile_throws env (path_join env folder ".cursorrules") = false ->
  exists w',
    _setRule env rule w = (Ok tt, w') /\
    files w'
    = <[path_join env folder ".cursorrules" := content rule]> (files w) /\
    notifications w'
    = (notifications w
         ++ [overwrite_prompt;
             InformationMessage
               ("Successfully applied rule: " ++ title rule)])%list.
Proof.
  intros Hfolder Hfile Hyes Hwrite. unfold _setRule. rewrite Hfolder.
  unfold bind at 1, existsSync. rewrite Hfile.
  rewrite bool_decide_eq_true_2 by eauto.
  unfold bind at 1, showWarningMessage, bind at 1, notify, ret at 1.
  unfold bind at 1, ret at 1. rewrite Hyes.
  rewrite bool_decide_eq_true_2 by reflexivity. cbn [negb].
  unfold try_catch, bind, writeFileSync, showInformationMessage, notify.
  rewrite Hwrite. eexists. split; [reflexivity|]. cbn.
  rewrite <- app_assoc. split; reflexivity.
Qed.

Lemma setRule_overwrite_confirmed_witness :
  exists w',
    _setRule (Sample.with_choice (Some "Yes") (Sample.host Sample.morning))
             Sample.rule_a Sample.occupied
    = (Ok tt, w') /\
    files w' !! "/work/.cursorrules" = Some "Always use strict mode." /\
    notifications w'
    = [overwrite_prompt;
       InformationMessage "Successfully applied rule: Rule A"].
Proof.
  destruct (setRule_overwrite_confirmed
              (Sample.with_choice (Some "Yes") (Sample.host Sample.morning))
              Sample.rule_a Sample.occupied "/work" [] "old rules")
    as (w' & Hrun & Hfiles & Hnotes).
  - reflexivity.
  - vm_compute. reflexivity.
  - reflexivity.
  - reflexivity.
  - exists w'. split; [exact Hrun|]. rewrite Hfiles, Hnotes.
    split; [vm_compute; reflexivity|reflexivity].
Defined.

(** X15.  A failed write is reported, not raised.  When [_setRule] reaches
    the write (no file yet, or the overwrite was confirmed) and the file
    system refuses it, the routine still returns normally, every file keeps
    its contents, and the last notification is "Failed to apply rule";
    no success message is raised. *)
Theorem setRule_write_failure (env : Env) (rule : Rule) (w : World)
    (folder : string) (others : list string) :
  workspaceFolders w = folder :: others ->
  files w !! path_join env folder ".cursorrules" = None \/
  warning_choice env = Some "Yes" ->
  writeFile_throws env (path_join env folder ".cursorrules") = true ->
  exists w' asked,
    _setRule env rule w = (Ok tt, w') /\
    files w' = files w /\
    (asked = [] \/ asked = [overwrite_prompt]) /\
    notifications w'
    = (notifications w ++ asked
         ++ [ErrorMessage
               "Failed to apply rule. Please check console for details."])%list.
Proof.
  intros Hfolder Hreach Hwrite. unfold _setRule. rewrite Hfolder.
  unfold bind at 1, existsSync.
  destruct (files w !! path_join env folder ".cursorrules") as [old|] eqn:Hfile.
  - destruct Hreach as [[=]|Hyes].
    rewrite bool_decide_eq_true_2 by eauto.
    unfold bind at 1, showWarningMessage, bind at 1, notify, ret at 1.
    unfold bind at 1, ret at 1. rewrite Hyes.
    rewrite bool_decide_eq_true_2 by reflexivity. cbn [negb].
    unfold try_catch, bind, writeFileSync, showErrorMessage, notify.
    rewrite Hwrite. eexists _, [overwrite_prompt].
    split; [reflexivity|]. cbn. rewrite <- app_assoc. auto.
  - rewrite bool_decide_eq_false_2 by (intros [x [=]]).
    unfold bind at 1, ret at 1. cbn [negb].
    unfold try_catch, bind, writeFileSync, showErrorMessage, notify.
    rewrite Hwrite. eexists _, []. split; [reflexivity|]. cbn. auto.
Qed.

Lemma setRule_write_failure_witness :
  exists w' asked,
    _setRule (Sample.with_write_faults (fun _ => true)
                (Sample.host Sample.morning))
             Sample.rule_a Sample.fresh
    = (Ok tt, w') /\
    files w' = files Sample.fresh /\
    (asked = [] \/ asked = [overwrite_prompt]) /\
    notifications w'
    = (notifications Sample.fresh ++ asked
         ++ [ErrorMessage
               "Failed to apply rule. Please check console for details."])%list.
Proof.
  apply (setRule_write_failure
           (Sample.with_write_faults (fun _ => true)
              (Sample.host Sample.morning))
           Sample.rule_a Sample.fresh "/work" []).
  - reflexivity.
  - left. vm_compute. reflexivity.
  - reflexivity.
Defined.

(** X16.  What [_setRule] never does.  It always returns normally, never
    touches the configuration, never issues a request and never posts to
    the webview; the only file it can change is [.cursorrules] in the
    first workspace folder, and only into the rule's [content]. *)
Theorem setRule_frame (env : Env) (rule : Rule) (w : World) :
  exists w',
    _setRule env rule w = (Ok tt, w') /\
    config w' = config w /\
    requests w' = requests w /\
    posted w' = posted w /\
    panel w' = panel w /\
    forall p,
      files w' !! p <> files w !! p ->
      files w' !! p = Some (content rule) /\
      exists folder others,
        workspaceFolders w = folder :: others /\
        p = path_join env folder ".cursorrules".
Proof.
  unfold _setRule.
  destruct (workspaceFolders w) as [|folder others].
  { eexists. split; [reflexivity|]. cbn. repeat split; try reflexivity.
    all: contradiction. }
  assert (Hdone :
            forall w0 : World,
              files w0 = files w ->
              forall p,
                files (with_files
                         (<[path_join env folder ".cursorrules" := content rule]>
                            (files w0)) w0) !! p <> files w !! p ->
                files (with_files
                         (<[path_join env folder ".cursorrules" := content rule]>
                            (files w0)) w0) !! p = Some (content rule) /\
                exists f o, folder :: others = f :: o /\
                            p = path_join env f ".cursorrules").
  { intros w0 H0 p. cbn [files with_files]. rewrite H0.
    destruct (decide (path_join env folder ".cursorrules" = p)) as [<-|Hp].
    - rewrite lookup_insert_eq. eauto.
    - rewrite lookup_insert_ne by exact Hp. contradiction. }
  unfold bind, try_catch, existsSync, showWarningMessage, writeFileSync,
    showInformationMessage, showErrorMessage, notify, ret, bind.
  repeat (case_match; simplify_eq/=);
    (eexists; split; [reflexivity|]; cbn;
     repeat (split; [reflexivity|]));
    first [ intros p Hp; contradiction
          | intros p Hp; apply (Hdone _ eq_refl p Hp)
          | idtac ].
  all: intros p Hp.
  all: try contradiction.
  all: try (apply (Hdone (with_writes _ (with_notifications _ w)) eq_refl p Hp)).
  all: try (apply (Hdone (with_writes _ w) eq_refl p Hp)).
Qed.

(** X17.  The stamp round trip.  An accepted [_setLastSync t] is read back
    by [_getLastSync] as [t] and leaves the cached rules alone; a rejected
    one throws and leaves the stored stamp as it was. *)
Theorem setLastSync_then_getLastSync (env : Env) (t : Z) (w : World) :
  exists r w',
    _setLastSync env t w = (r, w') /\
    config w' !! RULES_CACHE_KEY = config w !! RULES_CACHE_KEY /\
    if update_rejects env LAST_SYNC_KEY
    then r = Throw ConfigError /\ _getLastSync w' = (Ok (stored_lastSync w), w')
    else r = Ok tt /\ _getLastSync w' = (Ok (Some t), w').
Proof.
  unfold _setLastSync, config_update.
  destruct (update_rejects env LAST_SYNC_KEY).
  - eexists _, _. split; [reflexivity|]. split; [reflexivity|].
    split; reflexivity.
  - eexists _, _. split; [reflexivity|]. cbn [config with_config].
    split; [apply lookup_insert_ne; discriminate|]. split; [reflexivity|].
    rewrite _getLastSync_eq. cbn [config with_config].
    rewrite lookup_insert_eq. reflexivity.
Qed.

(** ** The category list of the panel *)

Section Categories.

Import App.

Lemma includes_In (xs : list string) (x : string) :
  includes xs x = true <-> In x xs.
Proof.
  unfold includes. rewrite existsb_exists. split.
  - intros (y & Hy & Heq). apply String.eqb_eq in Heq. subst. exact Hy.
  - intros H. exists x. split; [exact H|apply String.eqb_refl].
Qed.

Lemma fold_set_add_In (xs acc : list string) (x : string) :
  In x (fold_left set_add xs acc) <-> In x acc \/ In x xs.
Proof.
  revert acc. induction xs as [|y xs IH]; intros acc; cbn.
  - tauto.
  - rewrite IH. unfold set_add.
    destruct (includes acc y) eqn:Hy.
    + apply includes_In in Hy. split; [tauto|].
      intros [H|[<-|H]]; auto.
    + rewrite in_app_iff. cbn. tauto.
Qed.

Lemma fold_set_add_NoDup (xs acc : list string) :
  List.NoDup acc -> List.NoDup (fold_left set_add xs acc).
Proof.
  revert acc. induction xs as [|y xs IH]; intros acc Hacc; cbn; [exact Hacc|].
  apply IH. unfold set_add.
  destruct (includes acc y) eqn:Hy; [exact Hacc|].
  apply (Permutation_NoDup (Permutation_cons_append acc y)).
  constructor; [|exact Hacc].
  intros Hin. apply includes_In in Hin. congruence.
Qed.

Lemma unique_In (xs : list string) (x : string) :
  In x (unique xs) <-> In x xs.
Proof. unfold unique. rewrite fold_set_add_In. cbn. tauto. Qed.

Lemma unique_NoDup (xs : list string) : List.NoDup (unique xs).
Proof. apply fold_set_add_NoDup. constructor. Qed.

Variable rs : list Rule.

Lemma compare_le (a b : string) :
  (compare_by_count rs a b <=? 0) = true <->
  (count_rules rs b <= count_rules rs a)%nat.
Proof. unfold compare_by_count. rewrite Z.leb_le. lia. Qed.

Lemma insert_sorted_perm (x : string) (l : list string) :
  Permutation (insert_sorted (compare_by_count rs) x l) (x :: l).
Proof.
  induction l as [|y l IH]; cbn; [reflexivity|].
  destruct (compare_by_count rs x y <=? 0); [reflexivity|].
  rewrite IH. apply perm_swap.
Qed.

Lemma sort_perm (l : list string) :
  Permutation (sort (compare_by_count rs) l) l.
Proof.
  induction l as [|x l IH]; cbn; [reflexivity|].
  rewrite insert_sorted_perm, IH. reflexivity.
Qed.

Lemma insert_sorted_sorted (x : string) (l : list string) :
  StronglySorted (before rs) l ->
  StronglySorted (before rs) (insert_sorted (compare_by_count rs) x l).
Proof.
  induction 1 as [|y l Hl IH Hy]; cbn.
  - repeat constructor.
  - destruct (compare_by_count rs x y <=? 0) eqn:Hcmp.
    + apply compare_le in Hcmp. constructor; [constructor; assumption|].
      constructor; [exact Hcmp|].
      rewrite List.Forall_forall in Hy |- *. intros z Hz.
      specialize (Hy z Hz). unfold before in *. lia.
    + constructor; [exact IH|].
      assert (Hxy : before rs y x).
      { unfold before. destruct (Nat.le_gt_cases (count_rules rs y)
                                                 (count_rules rs x)) as [H|H];
          [|lia].
        apply compare_le in H. congruence. }
      rewrite List.Forall_forall in Hy |- *. intros z Hz.
      apply (Permutation_in _ (insert_sorted_perm x l)) in Hz.
      destruct Hz as [<-|Hz]; [exact Hxy|exact (Hy z Hz)].
Qed.

Lemma sort_sorted (l : list string) :
  StronglySorted (before rs) (sort (compare_by_count rs) l).
Proof.
  induction l as [|x l IH]; cbn; [constructor|].
  apply insert_sorted_sorted, IH.
Qed.

Lemma insert_sorted_filter (k : nat) (x : string) (l : list string) :
  List.filter (fun c => (count_rules rs c =? k)%nat)
         (insert_sorted (compare_by_count rs) x l)
  = List.filter (fun c => (count_rules rs c =? k)%nat) (x :: l).
Proof.
  induction l as [|y l IH]; [reflexivity|].
  cbn [insert_sorted].
  destruct (compare_by_count rs x y <=? 0) eqn:Hcmp; [reflexivity|].
  assert (Hlt : (count_rules rs x < count_rules rs y)%nat).
  { destruct (Nat.le_gt_cases (count_rules rs y) (count_rules rs x)) as [H|H];
      [|exact H].
    apply compare_le in H. congruence. }
  cbn [List.filter] in *. rewrite IH.
  destruct (Nat.eqb_spec (count_rules rs x) k),
           (Nat.eqb_spec (count_rules rs y) k); try reflexivity.
  lia.
Qed.

Lemma sort_filter (k : nat) (l : list string) :
  List.filter (fun c => (count_rules rs c =? k)%nat) (sort (compare_by_count rs) l)
  = List.filter (fun c => (count_rules rs c =? k)%nat) l.
Proof.
  induction l as [|x l IH]; [reflexivity|].
  cbn [sort fold_right]. rewrite insert_sorted_filter.
  cbn [List.filter]. fold (sort (compare_by_count rs) l). rewrite IH. reflexivity.
Qed.

Lemma tagged_In (c : string) :
  In c (flat_map tags rs) <-> exists r, In r rs /\ In c (tags r).
Proof. apply in_flat_map. Qed.

Lemma count_rules_pos (c : string) :
  (exists r, In r rs /\ In c (tags r)) <-> (0 < count_rules rs c)%nat.
Proof.
  unfold count_rules. split.
  - intros (r & Hr & Hc).
    assert (Hin : In r (List.filter (fun r => includes (tags r) c) rs)).
    { apply filter_In. split; [exact Hr|apply includes_In, Hc]. }
    destruct (List.filter _ rs); [contradiction|cbn; lia].
  - destruct (List.filter (fun r => includes (tags r) c) rs) as [|r l] eqn:Hf;
      [cbn; lia|].
    intros _. assert (Hin : In r (List.filter (fun r => includes (tags r) c) rs))
      by (rewrite Hf; left; reflexivity).
    apply filter_In in Hin. destruct Hin as [Hr Hc].
    exists r. split; [exact Hr|apply includes_In, Hc].
Qed.

Lemma categories_cover_tags_aux :
  List.NoDup (sort (compare_by_count rs) (unique (flat_map tags rs))) /\
  forall c,
    In c (sort (compare_by_count rs) (unique (flat_map tags rs))) <->
    exists r, In r rs /\ In c (tags r).
Proof.
  split.
  - apply (Permutation_NoDup (Permutation_sym (sort_perm _))).
    apply unique_NoDup.
  - intros c. split.
    + intros H. apply (Permutation_in _ (sort_perm _)) in H.
      apply unique_In, tagged_In in H. exact H.
    + intros H. apply (Permutation_in _ (Permutation_sym (sort_perm _))).
      apply unique_In, tagged_In. exact H.
Qed.

End Categories.

(** X18.  The category list starts with "all"; after it comes every tag
    carried by some rule, each exactly once, and nothing else. *)
Theorem categories_cover_tags (rs : list Rule) :
  exists cs,
    App.categories_of rs = "all" :: cs /\
    List.NoDup cs /\
    forall c, In c cs <-> exists r, In r rs /\ In c (tags r).
Proof.
  eexists. split; [reflexivity|]. apply categories_cover_tags_aux.
Qed.

(** X19.  After "all" the categories stand in descending order of the
    number of rules they tag, and categories that tag equally many rules
    keep the order in which their tags first appear in the rule list (the
    sort is stable). *)
Theorem categories_sorted_by_count (rs : list Rule) :
  StronglySorted (App.before rs) (tl (App.categories_of rs)) /\
  forall k,
    List.filter (fun c => (App.count_rules rs c =? k)%nat)
                (tl (App.categories_of rs))
    = List.filter (fun c => (App.count_rules rs c =? k)%nat)
                  (App.unique (flat_map tags rs)).
Proof.
  split; [apply sort_sorted|]. intros k. apply sort_filter.
Qed.

(** X20.  No empty category is ever listed: after any [setRules] message,
    clicking a category that follows "all" shows at least one rule. *)
Theorem listed_category_shows_a_rule (st : App.State) (rs : list Rule)
    (stamp : option Z) (needs offline : bool) (c : string) :
  In c (tl (App.categories
              (App.handleMessage st (setRules rs stamp needs offline)))) ->
  App.filteredRules
    (App.selectCategory c
       (App.handleMessage st (setRules rs stamp needs offline))) <> [].
Proof.
  cbn [App.handleMessage App.categories App.categories_of tl].
  intros Hc. apply (Permutation_in _ (sort_perm rs _)) in Hc.
  apply unique_In, tagged_In in Hc. destruct Hc as (r & Hr & Hc).
  unfold App.filteredRules. cbn [App.selectCategory App.selectedCategory App.rules].
  intros Hnil.
  assert (Hin : In r (List.filter
                        (fun rule =>
                           String.eqb c "all" || App.includes (tags rule) c)
                        rs)).
  { apply filter_In. split; [exact Hr|].
    apply orb_true_iff. right. apply includes_In, Hc. }
  rewrite Hnil in Hin. contradiction.
Qed.

Lemma listed_category_shows_a_rule_witness :
  App.filteredRules
    (App.selectCategory "py"
       (App.handleMessage (App.mounted [])
          (setRules [Sample.rule_a; Sample.rule_b] None false false))) <> [].
Proof.
  apply (listed_category_shows_a_rule
           (App.mounted []) [Sample.rule_a; Sample.rule_b] None false false
           "py").
  vm_compute. right. left. reflexivity.
Defined.

(** X21.  The category list is free of duplicates exactly when no rule is
    tagged "all": a rule with that tag makes the list carry "all" twice,
    the second one being an ordinary tag. *)
Theorem categories_NoDup_iff (rs : list Rule) :
  List.NoDup (App.categories_of rs) <->
  forall r, In r rs -> ~ In "all" (tags r).
Proof.
  destruct (categories_cover_tags_aux rs) as (Hnd & Hin).
  unfold App.categories_of. split.
  - intros H r Hr Hall. inversion H as [|x l Hnot _]; subst.
    apply Hnot, Hin. eauto.
  - intros H. constructor; [|exact Hnd].
    intros Hall. apply Hin in Hall. destruct Hall as (r & Hr & Hall).
    exact (H r Hr Hall).
Qed.

(** ** What the provider posts to the panel *)

Section Posted.

Variable env : Env.

(** [_syncRules] posts at most one message, a [syncComplete]. *)
Lemma _syncRules_posted (w : World) :
  exists l,
    posted (snd (_syncRules env w)) = (posted w ++ l)%list /\
    Forall (fun m => exists t, m = syncComplete t) l.
Proof.
  unfold _syncRules, _setLastSync, try_catch, bind, fetch, parse, throw,
    writeFileSync, config_update, now, has_panel, postMessage,
    showInformationMessage, notify, ret.
  repeat (case_match; simplify_eq/=);
    first [ exists []; split; [symmetry; apply app_nil_r|constructor]
          | eexists [_]; split; [reflexivity|]; repeat constructor; eauto ].
Qed.

Lemma _loadRules_posted (w : World) :
  exists l,
    posted (snd (_loadRules env w)) = (posted w ++ l)%list /\
    Forall (fun m => exists t, m = syncComplete t) l.
Proof.
  assert (Hnone : forall w', posted w' = posted w ->
            exists l, posted w' = (posted w ++ l)%list /\
                      Forall (fun m => exists t, m = syncComplete t) l).
  { intros w' H. exists []. rewrite app_nil_r. split; [exact H|constructor]. }
  assert (Hac : posted (after_check w) = posted w).
  { unfold after_check. destruct (not_lastSync (stored_lastSync w)); reflexivity. }
  destruct (local_rules env w) as [|r0 l] eqn:Hlocal.
  { rewrite _loadRules_no_local by assumption. apply Hnone. reflexivity. }
  assert (Hne : local_rules env w <> []) by (rewrite Hlocal; discriminate).
  destruct (probe_ok env) eqn:Hprobe.
  2:{ rewrite _loadRules_probe_fails by assumption. apply Hnone. reflexivity. }
  destruct (needsSync_value (stored_lastSync w) (Date_now env (ticks w)))
    eqn:Hdue.
  - rewrite _loadRules_sync_due by assumption.
    destruct (_syncRules_posted (after_check w)) as (l' & Hl & Hall).
    rewrite Hac in Hl. exists l'. split; [|exact Hall].
    destruct (_syncRules env (after_check w)) as [[rs|e] w']; exact Hl.
  - rewrite _loadRules_not_due by assumption.
    repeat case_match; apply Hnone; exact Hac.
Qed.

Lemma _setRule_posted (rule : Rule) (w : World) :
  posted (snd (_setRule env rule w)) = posted w.
Proof.
  unfold _setRule.
  destruct (workspaceFolders w) as [|folder others]; [reflexivity|].
  unfold bind, try_catch, existsSync, showWarningMessage, writeFileSync,
    showInformationMessage, showErrorMessage, notify, ret, bind.
  repeat (case_match; simplify_eq/=); reflexivity.
Qed.

(** Messages that leave the Sync button hidden whatever the panel's state. *)
Lemma syncComplete_hides (l : list Outgoing) :
  Forall (fun m => exists t, m = syncComplete t) l ->
  forall m st, In m l ->
    App.sync_button_shown (App.handleMessage st m) = false.
Proof.
  intros Hall m st Hm. rewrite List.Forall_forall in Hall.
  destruct (Hall m Hm) as [t ->]. reflexivity.
Qed.

Lemma _sendRules_posted (w : World) :
  exists new,
    posted (snd (_sendRules env w)) = (posted w ++ new)%list /\
    forall m st, In m new ->
      App.sync_button_shown (App.handleMessage st m) = false.
Proof.
  destruct (panel w) eqn:Hpanel.
  - destruct (_sendRules_open env w Hpanel) as (r & w1 & Hrun & Hflags & ->).
    destruct (_loadRules_posted w) as (l & Hl & Hall).
    rewrite Hrun in Hl. cbn [snd] in Hl.
    eexists (l ++ [_])%list. cbn [snd posted with_posted].
    rewrite Hl, <- app_assoc. split; [reflexivity|].
    intros m st Hm. apply in_app_or in Hm. destruct Hm as [Hm|[<-|[]]].
    + exact (syncComplete_hides l Hall m st Hm).
    + unfold App.sync_button_shown. cbn. rewrite Hflags.
      destruct (isOffline r); reflexivity.
  - rewrite _sendRules_closed by assumption. exists [].
    rewrite app_nil_r. split; [reflexivity|]. intros m st [].
Qed.

End Posted.

(** X22.  The provider never makes the panel offer its Sync button.  Every
    message posted while the provider handles a panel message or the open
    command is either a [syncComplete] or a [setRules] whose two flags are
    equal, and the guard [needsSync && !isOffline] is false after either;
    so the button stays hidden after the panel, mounted on any bundled
    rules, has processed them all. *)
Theorem provider_never_offers_sync (env : Env) (w : World)
    (rulesData : list Rule) :
  (forall data,
     exists new,
       posted (snd (onDidReceiveMessage env data w)) = (posted w ++ new)%list /\
       (forall m st, In m new ->
          App.sync_button_shown (App.handleMessage st m) = false) /\
       App.sync_button_shown
         (fold_left App.handleMessage new (App.mounted rulesData)) = false) /\
  exists new,
    posted (snd (show env w)) = (posted w ++ new)%list /\
    (forall m st, In m new ->
       App.sync_button_shown (App.handleMessage st m) = false) /\
    App.sync_button_shown
      (fold_left App.handleMessage new (App.mounted rulesData)) = false.
Proof.
  assert (Hfold : forall new,
            (forall m st, In m new ->
               App.sync_button_shown (App.handleMessage st m) = false) ->
            forall st, App.sync_button_shown st = false ->
              App.sync_button_shown (fold_left App.handleMessage new st)
              = false).
  { induction new as [|m new IH]; intros Hall st Hst; [exact Hst|].
    cbn [fold_left]. apply IH.
    - intros m' st' H. apply Hall. right. exact H.
    - apply Hall. left. reflexivity. }
  assert (Hpack : forall w' : World,
            (exists new,
               posted w' = (posted w ++ new)%list /\
               forall m st, In m new ->
                 App.sync_button_shown (App.handleMessage st m) = false) ->
            exists new,
              posted w' = (posted w ++ new)%list /\
              (forall m st, In m new ->
                 App.sync_button_shown (App.handleMessage st m) = false) /\
              App.sync_button_shown
                (fold_left App.handleMessage new (App.mounted rulesData))
              = false).
  { intros w' (new & Hnew & Hall). exists new.
    split; [exact Hnew|]. split; [exact Hall|].
    apply Hfold; [exact Hall|reflexivity]. }
  split.
  - intros data. apply Hpack. destruct data as [|rule| |type].
    + apply _sendRules_posted.
    + exists []. cbn [onDidReceiveMessage]. rewrite _setRule_posted, app_nil_r.
      split; [reflexivity|]. intros m st [].
    + destruct (_syncRules_posted env w) as (l & Hl & Hall).
      exists l. split; [|exact (syncComplete_hides l Hall)].
      cbn [onDidReceiveMessage]. unfold bind.
      destruct (_syncRules env w) as [[rs|e] w']; exact Hl.
    + exists []. rewrite app_nil_r. split; [reflexivity|]. intros m st [].
  - apply Hpack. unfold show, bind at 1, has_panel.
    destruct (panel w) eqn:Hpanel.
    + exists []. rewrite app_nil_r. split; [reflexivity|]. intros m st [].
    + unfold bind at 1.
      destruct (_sendRules_posted env (with_panel true w)) as (new & Hnew & Hall).
      exists new. split; [exact Hnew|exact Hall].
Qed.

(** ** [removeIndentation] *)

Section Lines.

Import RuleCard.

Lemma split_lines_cons (s : list N) :
  exists l ls, split_lines s = l :: ls.
Proof.
  induction s as [|c s (l & ls & IH)]; cbn; [eauto|].
  destruct (c =? 10)%N; [eauto|]. rewrite IH. eauto.
Qed.

Lemma join_split (s : list N) : join_lines (split_lines s) = s.
Proof.
  induction s as [|c s IH]; [reflexivity|]. cbn [split_lines].
  destruct (N.eqb_spec c 10) as [->|Hc].
  - destruct (split_lines_cons s) as (l & ls & Hs). rewrite Hs in *.
    cbn [join_lines app]. f_equal. exact IH.
  - destruct (split_lines_cons s) as (l & ls & Hs). rewrite Hs in *.
    destruct ls; cbn in *; f_equal; exact IH.
Qed.

Lemma split_lines_no_newline (s : list N) :
  Forall (fun l => ~ In 10%N l) (split_lines s).
Proof.
  induction s as [|c s IH]; cbn [split_lines].
  - constructor; [intros []|constructor].
  - destruct (N.eqb_spec c 10) as [->|Hc].
    + constructor; [intros []|exact IH].
    + destruct (split_lines s) as [|l ls]; [repeat constructor; cbn; tauto|].
      inversion IH as [|? ? Hl Hls]; subst. constructor; [|exact Hls].
      cbn. intros [H|H]; [congruence|contradiction].
Qed.

Lemma split_join (ls : list (list N)) :
  ls <> [] ->
  Forall (fun l => ~ In 10%N l) ls ->
  split_lines (join_lines ls) = ls.
Proof.
  induction ls as [|l ls IH]; [contradiction|]. intros _ Hall.
  inversion Hall as [|? ? Hl Hls]; subst.
  destruct ls as [|l' ls'].
  - cbn [join_lines]. clear IH Hall Hls.
    induction l as [|c l IHl]; [reflexivity|]. cbn [split_lines].
    destruct (N.eqb_spec c 10) as [->|Hc]; [exfalso; apply Hl; left; reflexivity|].
    rewrite IHl; [reflexivity|]. intros H. apply Hl. right. exact H.
  - specialize (IH ltac:(discriminate) Hls).
    change (join_lines (l :: l' :: ls'))
      with (l ++ 10%N :: join_lines (l' :: ls'))%list.
    clear Hall. induction l as [|c l IHl].
    + cbn [app split_lines]. rewrite N.eqb_refl, IH. reflexivity.
    + cbn [app split_lines].
      destruct (N.eqb_spec c 10) as [->|Hc];
        [exfalso; apply Hl; left; reflexivity|].
      rewrite IHl; [reflexivity|]. intros H. apply Hl. right. exact H.
Qed.

Lemma trimStart_suffix (l : list N) (c : N) :
  In c (trimStart l) -> In c l.
Proof.
  induction l as [|d l IH]; cbn; [tauto|].
  destruct (is_white d); cbn; tauto.
Qed.

Lemma trimStart_idem (l : list N) : trimStart (trimStart l) = trimStart l.
Proof.
  induction l as [|c l IH]; [reflexivity|]. cbn [trimStart].
  destruct (is_white c) eqn:Hc; [exact IH|].
  cbn [trimStart]. rewrite Hc. reflexivity.
Qed.

Lemma trimStart_head (l : list N) (c : N) (rest : list N) :
  trimStart l = c :: rest -> is_white c = false.
Proof.
  induction l as [|d l IH]; cbn [trimStart]; [discriminate|].
  destruct (is_white d) eqn:Hd; [exact IH|]. intros [= <- _]. exact Hd.
Qed.

Lemma trimStart_fixed (l : list N) :
  trimStart l = l <-> forall c rest, l = c :: rest -> is_white c = false.
Proof.
  split.
  - intros H c rest Hl. rewrite Hl in H. exact (trimStart_head _ _ _ H).
  - destruct l as [|c rest]; [reflexivity|]. intros H. cbn [trimStart].
    rewrite (H c rest eq_refl). reflexivity.
Qed.

Lemma split_removeIndentation (s : list N) :
  split_lines (removeIndentation s) = map trimStart (split_lines s).
Proof.
  unfold removeIndentation. apply split_join.
  - destruct (split_lines_cons s) as (l & ls & ->). discriminate.
  - apply List.Forall_map.
    eapply List.Forall_impl; [|apply split_lines_no_newline].
    intros l Hl Hin. apply Hl. exact (trimStart_suffix _ _ Hin).
Qed.

End Lines.

(** X23.  [removeIndentation] works line by line: the lines of its result
    are the lines of the input, each with its leading white space removed.
    So the number of lines is kept and no line of the result starts with a
    white-space character. *)
Theorem removeIndentation_lines (content : list N) :
  RuleCard.split_lines (RuleCard.removeIndentation content)
  = map RuleCard.trimStart (RuleCard.split_lines content) /\
  length (RuleCard.split_lines (RuleCard.removeIndentation content))
  = length (RuleCard.split_lines content) /\
  forall line c rest,
    In line (RuleCard.split_lines (RuleCard.removeIndentation content)) ->
    line = c :: rest -> RuleCard.is_white c = false.
Proof.
  rewrite split_removeIndentation. split; [reflexivity|].
  split; [apply length_map|].
  intros line c rest Hin Hline. apply in_map_iff in Hin.
  destruct Hin as (l & Hl & _). subst line.
  exact (trimStart_head _ _ _ Hline).
Qed.

(** X24.  [removeIndentation] is idempotent: applying it to its own result
    changes nothing. *)
Theorem removeIndentation_idempotent (content : list N) :
  RuleCard.removeIndentation (RuleCard.removeIndentation content)
  = RuleCard.removeIndentation content.
Proof.
  unfold RuleCard.removeIndentation at 1. rewrite split_removeIndentation.
  rewrite map_map. unfold RuleCard.removeIndentation. f_equal.
  apply map_ext. intros l. apply trimStart_idem.
Qed.

(** X25.  [removeIndentation] leaves a text as it is exactly when none of
    its lines starts with a white-space character. *)
Theorem removeIndentation_fixed_iff (content : list N) :
  RuleCard.removeIndentation content = content <->
  forall line c rest,
    In line (RuleCard.split_lines content) ->
    line = c :: rest -> RuleCard.is_white c = false.
Proof.
  split.
  - intros Hfix line c rest Hin Hline.
    rewrite <- Hfix in Hin. rewrite split_removeIndentation in Hin.
    apply in_map_iff in Hin. destruct Hin as (l & Hl & _). subst line.
    exact (trimStart_head _ _ _ Hline).
  - intros Hclean. unfold RuleCard.removeIndentation.
    rewrite <- (join_split content) at 2. f_equal.
    rewrite <- (map_id (RuleCard.split_lines content)) at 2.
    apply map_ext_in. intros l Hl. apply trimStart_fixed.
    intros c rest Hline. exact (Hclean l c rest Hl Hline).
Qed.

(** ** Network use and message order *)

Section Traffic.

Variable env : Env.

(** [_syncRules] issues exactly one request, the [GET]. *)
Lemma _syncRules_requests (w : World) :
  requests (snd (_syncRules env w)) = (requests w ++ [GET])%list.
Proof.
  unfold _syncRules, _setLastSync, try_catch, bind, fetch, parse, throw,
    writeFileSync, config_update, now, has_panel, postMessage,
    showInformationMessage, notify, ret.
  repeat (case_match; simplify_eq/=); reflexivity.
Qed.

End Traffic.

(** X26.  One load costs at most two requests.  [_loadRules] issues no
    request when there are no local rules, the [HEAD] probe alone when the
    probe fails or no sync is due, and the probe followed by one [GET] when
    a sync is due; never anything else. *)
Theorem loadRules_requests (env : Env) (w : World) :
  requests (snd (_loadRules env w))
  = (requests w
       ++ if bool_decide (local_rules env w = []) then []
          else if probe_ok env
                  && needsSync_value (stored_lastSync w)
                                     (Date_now env (ticks w))
               then [HEAD; GET]
               else [HEAD])%list.
Proof.
  destruct (after_check_fields w) as (_ & _ & _ & Hreq & _).
  destruct (local_rules env w) as [|r0 l] eqn:Hlocal.
  { rewrite _loadRules_no_local by assumption. cbn. symmetry. apply app_nil_r. }
  assert (Hne : local_rules env w <> []) by (rewrite Hlocal; discriminate).
  rewrite bool_decide_eq_false_2 by discriminate.
  destruct (probe_ok env) eqn:Hprobe; cbn [andb].
  2:{ rewrite _loadRules_probe_fails by assumption. reflexivity. }
  destruct (needsSync_value (stored_lastSync w) (Date_now env (ticks w)))
    eqn:Hdue.
  - rewrite _loadRules_sync_due by assumption.
    pose proof (_syncRules_requests env (after_check w)) as Hget.
    rewrite Hreq, <- app_assoc in Hget.
    destruct (_syncRules env (after_check w)) as [[rs|e] w']; exact Hget.
  - rewrite _loadRules_not_due by assumption.
    repeat case_match; exact Hreq.
Qed.

(** X27.  What the panel receives from a load that syncs.  With the panel
    open, a successful probe, a sync due and the sync going through,
    [_sendRules] posts exactly two messages: first [syncComplete] with the
    clock reading of line 235, then [setRules] with the fetched rules, both
    flags false and the stored stamp, which is the earlier reading of
    line 230. *)
Theorem sendRules_after_sync (env : Env) (w : World) (rs : list Rule) :
  panel w = true ->
  local_rules env w <> [] ->
  probe_ok env = true ->
  needsSync_value (stored_lastSync w) (Date_now env (ticks w)) = true ->
  fetched env = Some rs ->
  writeFile_throws env (RULES_JSON_PATH env) = false ->
  update_rejects env RULES_CACHE_KEY = false ->
  update_rejects env LAST_SYNC_KEY = false ->
  posted (snd (_sendRules env w))
  = (posted w
       ++ [syncComplete
             (Date_now env
                (S (ticks_after_check (stored_lastSync w) (ticks w))));
           setRules rs
             (Some (Date_now env
                      (ticks_after_check (stored_lastSync w) (ticks w))))
             false false])%list.
Proof.
  intros Hpanel Hlocal Hprobe Hdue Hrs Hwrite Hcache Hstamp.
  destruct (_sendRules_open env w Hpanel) as (r & w1 & Hrun & _ & ->).
  rewrite _loadRules_sync_due in Hrun by assumption.
  destruct (_syncRules_success env (after_check w) rs Hrs Hwrite Hcache Hstamp)
    as (w' & Hsync & Hcfg & _ & _ & _ & _ & Hposted & _).
  rewrite Hsync in Hrun. injection Hrun as <- <-.
  destruct (after_check_fields w) as (_ & _ & _ & _ & Hticks).
  assert (Hp : posted (after_check w) = posted w /\ panel (after_check w) = true).
  { unfold after_check.
    destruct (not_lastSync (stored_lastSync w)); split; (reflexivity || exact Hpanel). }
  destruct Hp as [Hp1 Hp2]. rewrite Hp1, Hp2, Hticks in Hposted.
  cbn [snd posted with_posted rules needsSync isOffline].
  rewrite Hposted, <- app_assoc. cbn [app]. do 3 f_equal.
  unfold stored_lastSync. rewrite _getLastSync_eq, Hcfg. cbn [fst].
  rewrite lookup_insert_eq, Hticks. reflexivity.
Qed.

Lemma sendRules_after_sync_witness :
  posted (snd (_sendRules (Sample.host Sample.morning) Sample.fresh))
  = [syncComplete (Sample.morning + 1);
     setRules [Sample.rule_a; Sample.rule_b] (Some Sample.morning)
              false false].
Proof.
  apply (sendRules_after_sync
           (Sample.host Sample.morning) Sample.fresh
           [Sample.rule_a; Sample.rule_b]).
  - reflexivity.
  - vm_compute. discriminate.
  - reflexivity.
  - reflexivity.
  - reflexivity.
  - reflexivity.
  - reflexivity.
  - reflexivity.
Defined.

(** ** Errors at the boundary of an action *)

Section Boundary.

Variable env : Env.



End Boundary.


